(** * A shallow embedding of the appointment-scheduling dialogue agent

    The development follows the Python sources:
    - [agents/greeting_agent.py]   : [PatientInfo], the missing-info message;
    - [main_graph.py]              : the conversation state, the node handlers
                                     and the router;
    - [tools/calendar_tools.py]    : the slot finder;
    - [tools/database_tools.py], [agents/patient_lookup_agent.py] : the lookup;
    - [tools/export_tools.py]      : the booking writer.

    Python [str] values are modelled as [string]; [None]-able values as
    [option]; dictionaries as [gmap]; the set of booked start-times as a
    [gset]; naive datetimes as a number of seconds ([Z]). *)

From Stdlib Require Import ZArith Lia List Ascii String Bool.
From stdpp Require Import base option list gmap strings pretty.

Local Open Scope string_scope.
Local Open Scope Z_scope.

(** ** Python primitives on strings *)
Module Py.

(** Truthiness of a [str | None] value: [None] and [""] are falsy. *)
Definition truthy (v : option string) : bool :=
  match v with
  | None => false
  | Some s => negb (String.eqb s "")
  end.

(** [a or b] on [str | None] values. *)
Definition or_ (a b : option string) : option string :=
  if truthy a then a else b.

(** [sep.join(l)]. *)
Fixpoint join (sep : string) (l : list string) : string :=
  match l with
  | [] => ""
  | [x] => x
  | x :: rest => x +:+ sep +:+ join sep rest
  end.

(** [needle in hay] for two [str] values. *)
Fixpoint contains (needle hay : string) : bool :=
  String.prefix needle hay ||
  match hay with
  | EmptyString => false
  | String _ rest => contains needle rest
  end.

(** [any(p(w) for w in l)]. *)
Definition any {A} (p : A -> bool) (l : list A) : bool := existsb p l.

(** [s.lower()] on the ASCII letters. *)
Definition lower_ascii (c : ascii) : ascii :=
  let n := nat_of_ascii c in
  if (Nat.leb 65 n && Nat.leb n 90)%bool then ascii_of_nat (n + 32) else c.

Fixpoint lower (s : string) : string :=
  match s with
  | EmptyString => EmptyString
  | String c rest => String (lower_ascii c) (lower rest)
  end.

(** The ASCII characters [str.strip()] removes. *)
Definition is_space (c : ascii) : bool :=
  let n := nat_of_ascii c in
  (Nat.leb 9 n && Nat.leb n 13)%bool || (Nat.leb 28 n && Nat.leb n 32)%bool.

Fixpoint lstrip (s : string) : string :=
  match s with
  | EmptyString => EmptyString
  | String c rest => if is_space c then lstrip rest else s
  end.

(** [rstrip] keeps a character when it is not a space or when something
    remains after it. *)
Fixpoint rstrip (s : string) : string :=
  match s with
  | EmptyString => EmptyString
  | String c rest =>
      match rstrip rest with
      | EmptyString => if is_space c then EmptyString else String c EmptyString
      | r => String c r
      end
  end.

Definition strip (s : string) : string := rstrip (lstrip s).

(** [s[-n:]]: the last [n] characters, the whole string when it is shorter. *)
Definition last_chars (n : nat) (s : string) : string :=
  let len := String.length s in
  String.substring (len - n) (len - (len - n)) s.

End Py.

(** ** [agents/greeting_agent.py] *)

(** [class PatientInfo(BaseModel)]: four [str | None] fields. *)
Record PatientInfo := mkPatientInfo {
  full_name : option string;
  date_of_birth : option string;
  preferred_doctor : option string;
  preferred_location : option string
}.

(** The JSON object the extraction oracle returns, restricted to string and
    null values: [data.get(k)] is [None] for a missing key and for [null]. *)
Definition dict_get (data : gmap string (option string)) (k : string)
  : option string :=
  match data !! k with
  | Some v => v
  | None => None
  end.

Definition normalize_and_validate_patient_info
    (data : gmap string (option string)) : PatientInfo :=
  let get := dict_get data in
  {| full_name :=
       Py.or_ (Py.or_ (get "fullName") (get "full_name")) (get "name");
     date_of_birth :=
       Py.or_ (Py.or_ (get "dateOfBirth") (get "date_of_birth")) (get "dob");
     preferred_doctor :=
       Py.or_ (Py.or_ (get "preferredDoctor") (get "preferred_doctor"))
              (get "doctor");
     preferred_location :=
       Py.or_ (Py.or_ (get "preferredLocation") (get "preferred_location"))
              (get "location") |}.

(** [info_lines] of [format_patient_info_for_confirmation]; an f-string over
    a truthy field prints the field. *)
Definition info_line (label : string) (v : option string) : list string :=
  match v with
  | Some s => if Py.truthy v then [label +:+ s] else []
  | None => []
  end.

Definition format_patient_info_for_confirmation (pi : PatientInfo) : string :=
  let nl := String (ascii_of_nat 10) "" in
  Py.join nl
    (info_line "**Name:** " (full_name pi)
     ++ info_line "**Date of Birth:** " (date_of_birth pi)
     ++ info_line "**Preferred Doctor:** " (preferred_doctor pi)
     ++ info_line "**Preferred Location:** " (preferred_location pi)).

(** [missing_fields.append(label)] guarded by [if not field]. *)
Definition append_if_missing (v : option string) (label : string)
    (missing_fields : list string) : list string :=
  if Py.truthy v then missing_fields else missing_fields ++ [label].

Definition missing_fields (pi : PatientInfo) : list string :=
  let m := [] in
  let m := append_if_missing (full_name pi) "your full name" m in
  let m := append_if_missing (date_of_birth pi) "your date of birth" m in
  let m := append_if_missing (preferred_doctor pi) "your preferred doctor" m in
  append_if_missing (preferred_location pi) "your preferred location" m.

Definition provide_suffix : string :=
  ". Could you please provide that information?".

(** [get_missing_info_message]: [None] when nothing is missing. *)
Definition get_missing_info_message (pi : PatientInfo) : option string :=
  let mf := missing_fields pi in
  match mf with
  | [] => None
  | [x] => Some ("I still need " +:+ x +:+ provide_suffix)
  | [x; y] => Some ("I still need " +:+ x +:+ " and " +:+ y +:+ provide_suffix)
  | _ =>
      let missing_str :=
        Py.join ", " (removelast mf) +:+ ", and " +:+ List.last mf "" in
      Some ("I still need " +:+ missing_str +:+ provide_suffix)
  end.

(** [all([...])] over the four fields. *)
Definition is_patient_info_complete (pi : PatientInfo) : bool :=
  Py.truthy (full_name pi) && Py.truthy (date_of_birth pi)
  && Py.truthy (preferred_doctor pi) && Py.truthy (preferred_location pi).

(** The merge of [greeting_node]: [new.f or existing.f] for each field. *)
Definition merge_patient_info (patient_info existing_info : PatientInfo)
  : PatientInfo :=
  {| full_name := Py.or_ (full_name patient_info) (full_name existing_info);
     date_of_birth :=
       Py.or_ (date_of_birth patient_info) (date_of_birth existing_info);
     preferred_doctor :=
       Py.or_ (preferred_doctor patient_info) (preferred_doctor existing_info);
     preferred_location :=
       Py.or_ (preferred_location patient_info)
              (preferred_location existing_info) |}.

(** ** Exceptions and running out of fuel *)

Inductive Exn :=
  | KeyError | TypeError | ValueError | IndexError | AttributeError | OSError
  | PatientNotFoundError.

(** What a call does: it returns, it raises, or the bounded model of a
    [while] loop ran out of steps. *)
Inductive Outcome (A : Type) :=
  | Ok (a : A)
  | Raise (e : Exn)
  | OutOfFuel.
Arguments Ok {A} a.
Arguments Raise {A} e.
Arguments OutOfFuel {A}.

#[global] Instance outcome_bind : MBind Outcome := fun A B k m =>
  match m with
  | Ok a => k a
  | Raise e => Raise e
  | OutOfFuel => OutOfFuel
  end.

#[global] Instance outcome_fmap : FMap Outcome := fun A B f m =>
  match m with
  | Ok a => Ok (f a)
  | Raise e => Raise e
  | OutOfFuel => OutOfFuel
  end.

(** [d[k]] on an optional entry: [KeyError] when it is absent. *)
Definition subscript {A} (v : option A) : Outcome A :=
  match v with
  | Some a => Ok a
  | None => Raise KeyError
  end.

(** ** Naive datetimes

    A datetime is its number of seconds since 1970-01-01 00:00:00; a
    [timedelta(minutes=m)] is [60 * m] seconds. *)
Module DT.

Definition timedelta_minutes (m : Z) : Z := 60 * m.
Definition timedelta_days (d : Z) : Z := 86400 * d.

(** Days since the epoch of the civil date [y-m-d] (proleptic Gregorian). *)
Definition days_from_civil (y m d : Z) : Z :=
  let y' := if m <=? 2 then y - 1 else y in
  let era := y' / 400 in
  let yoe := y' - era * 400 in
  let mp := (m + 9) mod 12 in
  let doy := (153 * mp + 2) / 5 + d - 1 in
  let doe := yoe * 365 + yoe / 4 - yoe / 100 + doy in
  era * 146097 + doe - 719468.

(** The civil date [(year, month, day)] of a day number. *)
Definition civil_from_days (z : Z) : Z * Z * Z :=
  let z' := z + 719468 in
  let era := z' / 146097 in
  let doe := z' - era * 146097 in
  let yoe := (doe - doe / 1460 + doe / 36524 - doe / 146096) / 365 in
  let doy := doe - (365 * yoe + yoe / 4 - yoe / 100) in
  let mp := (5 * doy + 2) / 153 in
  let d := doy - (153 * mp + 2) / 5 + 1 in
  let m := if mp <? 10 then mp + 3 else mp - 9 in
  let y := yoe + era * 400 in
  (if m <=? 2 then y + 1 else y, m, d).

(** [datetime(y, m, d, hh, mi, ss)]. *)
Definition datetime (y m d hh mi ss : Z) : Z :=
  days_from_civil y m d * 86400 + hh * 3600 + mi * 60 + ss.

Definition year (t : Z) : Z := (civil_from_days (t / 86400)).1.1.
Definition month (t : Z) : Z := (civil_from_days (t / 86400)).1.2.
Definition day (t : Z) : Z := (civil_from_days (t / 86400)).2.
Definition hour (t : Z) : Z := (t mod 86400) / 3600.
Definition minute (t : Z) : Z := (t mod 3600) / 60.
Definition second (t : Z) : Z := t mod 60.

(** [weekday()]: Monday is 0; 1970-01-01 was a Thursday. *)
Definition weekday (t : Z) : Z := (t / 86400 + 3) mod 7.

Definition digit (n : Z) : ascii := ascii_of_nat (48 + Z.to_nat (n mod 10)).

(** The last [w] decimal digits of [n], zero padded. *)
Fixpoint digits (w : nat) (n : Z) : string :=
  match w with
  | O => ""
  | S w' => digits w' (n / 10) +:+ String (digit n) ""
  end.

Definition day_name (wd : Z) : string :=
  nth (Z.to_nat wd)
    ["Monday"; "Tuesday"; "Wednesday"; "Thursday"; "Friday"; "Saturday";
     "Sunday"] "".

Definition month_name (m : Z) : string :=
  nth (Z.to_nat (m - 1))
    ["January"; "February"; "March"; "April"; "May"; "June"; "July";
     "August"; "September"; "October"; "November"; "December"] "".

(** [t.strftime('%A, %B %d')]. *)
Definition strftime_date (t : Z) : string :=
  day_name (weekday t) +:+ ", " +:+ month_name (month t) +:+ " "
  +:+ digits 2 (day t).

(** [t.strftime('%I:%M %p')]. *)
Definition strftime_time12 (t : Z) : string :=
  let h := hour t in
  let h12 := if h mod 12 =? 0 then 12 else h mod 12 in
  digits 2 h12 +:+ ":" +:+ digits 2 (minute t) +:+ " "
  +:+ (if h <? 12 then "AM" else "PM").

(** [t.strftime("%Y%m%d%H%M%S")]. *)
Definition strftime_compact (t : Z) : string :=
  digits 4 (year t) +:+ digits 2 (month t) +:+ digits 2 (day t)
  +:+ digits 2 (hour t) +:+ digits 2 (minute t) +:+ digits 2 (second t).

(** [t.strftime("%Y-%m-%d")] and [t.strftime("%H:%M:%S")]. *)
Definition strftime_iso_date (t : Z) : string :=
  digits 4 (year t) +:+ "-" +:+ digits 2 (month t) +:+ "-"
  +:+ digits 2 (day t).

Definition strftime_iso_time (t : Z) : string :=
  digits 2 (hour t) +:+ ":" +:+ digits 2 (minute t) +:+ ":"
  +:+ digits 2 (second t).

End DT.

(** ** [tools/calendar_tools.py] *)

(** A row of the schedule frame after [__init__] added the two datetime
    columns. *)
Record ScheduleRow := mkScheduleRow {
  doctor_name : string;
  start_datetime : Z;
  end_datetime : Z
}.

Record CalendarTools := mkCalendarTools {
  appointment_durations : gmap string Z;
  df : list ScheduleRow;
  booked_slots : gset Z
}.

(** The body of the [for] loop of [_load_booked_slots]: a row of the
    appointments file is given by what [pd.to_datetime] makes of it, [None]
    when it raises.  The [try] encloses the whole loop, so the first row
    that fails ends it and the set built so far is kept. *)
Fixpoint load_rows (rows : list (option Z)) (acc : gset Z) : gset Z :=
  match rows with
  | [] => acc
  | Some booked_time :: rest => load_rows rest (acc ∪ {[booked_time]})
  | None :: _ => acc
  end.

(** [_load_booked_slots]: [app_rows] is [None] when the file does not exist. *)
Definition _load_booked_slots (self : CalendarTools)
    (app_rows : option (list (option Z))) : CalendarTools :=
  {| appointment_durations := appointment_durations self;
     df := df self;
     booked_slots :=
       match app_rows with
       | Some rows => load_rows rows ∅
       | None => ∅
       end |}.

Definition format_slot (doctor : string) (slot_start : Z) : string :=
  doctor +:+ " on " +:+ DT.strftime_date slot_start +:+ " at "
  +:+ DT.strftime_time12 slot_start.

(** The [while] loop over one schedule row; [fuel] bounds its iterations. *)
Fixpoint slots_of_block (fuel : nat) (booked : gset Z) (doctor : string)
    (appointment_duration slot_start block_end : Z)
    (available_slots : list string) : Outcome (list string) :=
  if slot_start + appointment_duration <=? block_end then
    match fuel with
    | O => OutOfFuel
    | S fuel' =>
        let available_slots :=
          if decide (slot_start ∈ booked) then available_slots
          else (available_slots ++ [format_slot doctor slot_start])%list in
        slots_of_block fuel' booked doctor appointment_duration
          (slot_start + appointment_duration) block_end available_slots
    end
  else Ok available_slots.

(** The [for] loop over the rows of [relevant_schedule]. *)
Fixpoint slots_of_rows (fuel : nat) (booked : gset Z)
    (appointment_duration : Z) (rows : list ScheduleRow)
    (available_slots : list string) : Outcome (list string) :=
  match rows with
  | [] => Ok available_slots
  | row :: rest =>
      available_slots ←
        slots_of_block fuel booked (doctor_name row) appointment_duration
          (start_datetime row) (end_datetime row) available_slots;
      slots_of_rows fuel booked appointment_duration rest available_slots
  end.

Definition in_range (start_date end_date : Z) (row : ScheduleRow) : bool :=
  (start_date <=? start_datetime row) && (start_datetime row <? end_date).

Definition find_available_slots (fuel : nat) (self : CalendarTools)
    (is_new_patient : bool) (start_date end_date : Z)
  : Outcome (list string) :=
  let duration_key :=
    if is_new_patient then "new_patient" else "returning_patient" in
  duration_minutes ← subscript (appointment_durations self !! duration_key);
  let appointment_duration := DT.timedelta_minutes duration_minutes in
  let relevant_schedule := List.filter (in_range start_date end_date) (df self) in
  slots_of_rows fuel (booked_slots self) appointment_duration
    relevant_schedule [].

(** [settings.APPOINTMENT_DURATIONS]. *)
Definition APPOINTMENT_DURATIONS : gmap string Z :=
  <["new_patient" := 60]> (<["returning_patient" := 30]> ∅).

(** ** [tools/database_tools.py] and [agents/patient_lookup_agent.py] *)
Module PatientDB.

(** The columns of [patients.csv] the lookup reads; [date_of_birth] is
    already a string ([astype(str)]). *)
Record Row := mkRow {
  patient_id : string;
  first_name : string;
  last_name : string;
  date_of_birth : string;
  visit_history : Z
}.

(** [self.df['first_name'] + ' ' + self.df['last_name']]. *)
Definition full_name (r : Row) : string :=
  first_name r +:+ " " +:+ last_name r.

Section Lookup.

(** The similarity score (0 to 100) the fuzzy-matching library gives a query
    and a choice. *)
Variable scorer : string -> string -> Z.

(** Modelled from the spec: [process.extractOne] of the fuzzy-matching
    library, which is not part of the repository.  "Find the best fuzzy
    string match among known patient full names with a similarity floor":
    the choice with the highest score among those that reach [score_cutoff],
    the earliest one on a tie, and [None] when no choice reaches it. *)
Fixpoint extractOne (query : string) (choices : list string)
    (score_cutoff : Z) : option (string * Z) :=
  match choices with
  | [] => None
  | c :: rest =>
      let sc := scorer query c in
      match extractOne query rest score_cutoff with
      | Some (c', sc') =>
          if (score_cutoff <=? sc) && (sc' <=? sc) then Some (c, sc)
          else Some (c', sc')
      | None => if score_cutoff <=? sc then Some (c, sc) else None
      end
  end.

(** [search_patient]: the record found, or [None]. *)
Definition search_patient (df : list Row) (full_name' : string)
    (dob : option string) : option Row :=
  match df with
  | [] => None
  | _ =>
      let names := List.map full_name df in
      match extractOne full_name' names 80 with
      | None => None
      | Some (matched_name, _) =>
          let patient_record :=
            List.filter
              (fun r => String.eqb (full_name r) matched_name
                        && bool_decide (Some (date_of_birth r) = dob)) df in
          match patient_record with
          | r :: _ => Some r
          | [] => None
          end
      end
  end.

Definition is_returning_patient (df : list Row) (pid : string) : bool :=
  match df with
  | [] => false
  | _ =>
      match List.filter (fun r => String.eqb (patient_id r) pid) df with
      | r :: _ => 0 <? visit_history r
      | [] => false
      end
  end.

(** [lookup_patient]: [(patient_id, is_new_patient)] of the result
    dictionary, or [PatientNotFoundError]. *)
Definition lookup_patient (patient_name : string) (patient_dob : option string)
    (db_tool : list Row) : Outcome (string * bool) :=
  match search_patient db_tool patient_name patient_dob with
  | Some patient_record =>
      let pid := patient_id patient_record in
      let is_returning := is_returning_patient db_tool pid in
      Ok (pid, negb is_returning)
  | None => Raise PatientNotFoundError
  end.

End Lookup.
End PatientDB.

(** ** [tools/export_tools.py] *)
Module ExportTools.

(** The characters the pattern's [.] matches: all but the newline. *)
Definition dot (c : ascii) : bool := negb (Ascii.eqb c (ascii_of_nat 10)).

(** The final [(.+)]: the longest run of [.] characters. *)
Fixpoint take_dots (s : string) : string :=
  match s with
  | EmptyString => EmptyString
  | String c rest => if dot c then String c (take_dots rest) else EmptyString
  end.

Definition drop4 (s : string) : string :=
  String.substring 4 (String.length s - 4) s.

(** [" at (.+)"] at the head of [s]. *)
Definition match_at (s : string) : option string :=
  if String.prefix " at " s then
    match take_dots (drop4 s) with
    | EmptyString => None
    | g3 => Some g3
    end
  else None.

(** The lazy [(.+?)] of the date: [g2] is what the group holds so far (at
    least one character); the rest of the pattern is tried first, and the
    group grows by one [.] character when that fails. *)
Fixpoint match_date (g2 : string) (s : string) : option (string * string) :=
  match match_at s with
  | Some g3 => Some (g2, g3)
  | None =>
      match s with
      | EmptyString => None
      | String c rest =>
          if dot c then match_date (g2 +:+ String c "") rest else None
      end
  end.

(** [" on (.+?) at (.+)"] at the head of [s]. *)
Definition match_on (s : string) : option (string * string) :=
  if String.prefix " on " s then
    match drop4 s with
    | String c rest => if dot c then match_date (String c "") rest else None
    | EmptyString => None
    end
  else None.

(** The lazy [.+?] inside the first group, after ["Dr. "]. *)
Fixpoint match_doctor (g1 : string) (s : string)
  : option (string * string * string) :=
  match match_on s with
  | Some (g2, g3) => Some (g1, g2, g3)
  | None =>
      match s with
      | EmptyString => None
      | String c rest =>
          if dot c then match_doctor (g1 +:+ String c "") rest else None
      end
  end.

(** The whole pattern anchored at the head of [s]. *)
Definition match_here (s : string) : option (string * string * string) :=
  if String.prefix "Dr. " s then
    match drop4 s with
    | String c rest =>
        if dot c then match_doctor ("Dr. " +:+ String c "") rest else None
    | EmptyString => None
    end
  else None.

(** [re.search(r"(Dr\. .+?) on (.+?) at (.+)", s)]: the leftmost match, as
    its three groups. *)
Fixpoint re_search (s : string) : option (string * string * string) :=
  match match_here s with
  | Some m => Some m
  | None =>
      match s with
      | EmptyString => None
      | String _ rest => re_search rest
      end
  end.

Record ParsedSlot := mkParsedSlot {
  p_doctor_name : string;
  p_appointment_date : string;
  p_appointment_time : string
}.

(** The row appended to the appointments file. *)
Record Appointment := mkAppointment {
  a_appointment_id : string;
  a_patient_id : string;
  a_doctor_name : string;
  a_appointment_date : string;
  a_appointment_time : string;
  a_is_new_patient : option bool;
  a_status : string
}.

Section Booking.

(** [datetime.strptime(text, "%A, %B %d, %Y %I:%M %p")] of the standard
    library: the datetime, or [None] for its [ValueError]. *)
Variable strptime : string -> option Z.

(** [_parse_slot_string]: the dictionary, [None] for the empty one that the
    [except] branch returns.  [now] is [datetime.now()]. *)
Definition _parse_slot_string (now : Z) (slot_string : string)
  : option ParsedSlot :=
  match re_search slot_string with
  | None => None
  | Some (g1, g2, g3) =>
      let doctor_name := Py.strip g1 in
      let date_str := Py.strip g2 in
      let time_str := Py.strip g3 in
      let full_date_str := date_str +:+ ", " +:+ pretty (DT.year now) in
      match strptime (full_date_str +:+ " " +:+ time_str) with
      | None => None
      | Some dt_object =>
          Some {| p_doctor_name := doctor_name;
                  p_appointment_date := DT.strftime_iso_date dt_object;
                  p_appointment_time := DT.strftime_iso_time dt_object |}
      end
  end.

(** The identifier of [book_appointment]: [f"APP{timestamp}{patient_id[-4:]}"]. *)
Definition make_appointment_id (now : Z) (patient_id : string) : string :=
  let timestamp := DT.strftime_compact now in
  "APP" +:+ timestamp +:+ Py.last_chars 4 patient_id.

(** [book_appointment]: the new identifier together with the row appended
    to the appointments file, or the exception raised.  [write_ok] tells
    whether [to_csv] succeeds. *)
Definition book_appointment (now : Z) (write_ok : bool) (patient_id : string)
    (chosen_slot : string) (is_new_patient : option bool)
  : Exn + (string * Appointment) :=
  match _parse_slot_string now chosen_slot with
  | None => inl ValueError
  | Some parsed_slot =>
      let appointment_id := make_appointment_id now patient_id in
      let new_appointment :=
        {| a_appointment_id := appointment_id;
           a_patient_id := patient_id;
           a_doctor_name := p_doctor_name parsed_slot;
           a_appointment_date := p_appointment_date parsed_slot;
           a_appointment_time := p_appointment_time parsed_slot;
           a_is_new_patient := is_new_patient;
           a_status := "Confirmed" |} in
      if write_ok then inr (appointment_id, new_appointment)
      else inl OSError
  end.

End Booking.
End ExportTools.

(** ** [main_graph.py]: the conversation state *)

(** The values [conversation_stage] takes, in the order of the dialogue. *)
Inductive Stage :=
  | greeting | information_confirmation | patient_lookup | find_slots
  | selection_parser | confirmation | email_collection | completed.

#[global] Instance Stage_eq_dec : EqDecision Stage.
Proof. solve_decision. Defined.

Definition stage_rank (st : Stage) : nat :=
  match st with
  | greeting => 0
  | information_confirmation => 1
  | patient_lookup => 2
  | find_slots => 3
  | selection_parser => 4
  | confirmation => 5
  | email_collection => 6
  | completed => 7
  end.

Record Message := mkMessage { role : string; content : string }.

(** [class AgentState(TypedDict, total=False)]: a key that is absent is
    [None] here; no handler stores [None] under a key. *)
Record AgentState := mkAgentState {
  messages : list Message;
  patient_info : option PatientInfo;
  patient_id : option string;
  is_new_patient : option bool;
  available_slots : option (list string);
  chosen_slot : option string;
  appointment_id : option string;
  patient_email : option string;
  conversation_stage : option Stage
}.

Definition set_messages (v : list Message) (s : AgentState) : AgentState :=
  mkAgentState v (patient_info s) (patient_id s) (is_new_patient s)
    (available_slots s) (chosen_slot s) (appointment_id s) (patient_email s)
    (conversation_stage s).

Definition set_patient_info (v : PatientInfo) (s : AgentState) : AgentState :=
  mkAgentState (messages s) (Some v) (patient_id s) (is_new_patient s)
    (available_slots s) (chosen_slot s) (appointment_id s) (patient_email s)
    (conversation_stage s).

Definition set_patient (pid : string) (is_new : bool) (s : AgentState)
  : AgentState :=
  mkAgentState (messages s) (patient_info s) (Some pid) (Some is_new)
    (available_slots s) (chosen_slot s) (appointment_id s) (patient_email s)
    (conversation_stage s).

Definition set_available_slots (v : list string) (s : AgentState)
  : AgentState :=
  mkAgentState (messages s) (patient_info s) (patient_id s) (is_new_patient s)
    (Some v) (chosen_slot s) (appointment_id s) (patient_email s)
    (conversation_stage s).

Definition set_chosen_slot (v : string) (s : AgentState) : AgentState :=
  mkAgentState (messages s) (patient_info s) (patient_id s) (is_new_patient s)
    (available_slots s) (Some v) (appointment_id s) (patient_email s)
    (conversation_stage s).

Definition set_appointment_id (v : string) (s : AgentState) : AgentState :=
  mkAgentState (messages s) (patient_info s) (patient_id s) (is_new_patient s)
    (available_slots s) (chosen_slot s) (Some v) (patient_email s)
    (conversation_stage s).

Definition set_patient_email (v : string) (s : AgentState) : AgentState :=
  mkAgentState (messages s) (patient_info s) (patient_id s) (is_new_patient s)
    (available_slots s) (chosen_slot s) (appointment_id s) (Some v)
    (conversation_stage s).

Definition set_stage (v : Stage) (s : AgentState) : AgentState :=
  mkAgentState (messages s) (patient_info s) (patient_id s) (is_new_patient s)
    (available_slots s) (chosen_slot s) (appointment_id s) (patient_email s)
    (Some v).

(** [state['messages'].append({"role": "assistant", "content": c})]. *)
Definition say (c : string) (s : AgentState) : AgentState :=
  set_messages (messages s ++ [mkMessage "assistant" c]) s.

Definition nl : string := String (ascii_of_nat 10) "".

(** An f-string field over a [str | None] value. *)
Definition fmt (v : option string) : string := default "None" v.

(** The content of the last message whose role is ['user']. *)
Definition last_user_content (msgs : list Message) : option string :=
  content <$> List.find (fun m => String.eqb (role m) "user") (rev msgs).

(** [f"{i+1}. {s}"] for [i, s in enumerate(slots)], from index [i]. *)
Fixpoint numbered (i : nat) (slots : list string) : list string :=
  match slots with
  | [] => []
  | x :: rest =>
      (pretty (S i) +:+ ". " +:+ x) :: numbered (S i) rest
  end.

(** *** Texts *)
Definition greeting_text : string :=
  "Hello! I'm here to help you schedule a medical appointment. To get started, please provide me with the following information:"
  +:+ nl +:+ nl +:+ "‚Ä¢ Your full name" +:+ nl +:+ "‚Ä¢ Your date of birth"
  +:+ nl +:+ "‚Ä¢ Your preferred doctor" +:+ nl
  +:+ "‚Ä¢ Your preferred location" +:+ nl +:+ nl
  +:+ "You can provide all this information at once or we can go through it step by step.".

Definition update_text : string :=
  "No problem! Please tell me what information you'd like to update, and I'll make the changes.".

Definition confirm_text (formatted_info : string) : string :=
  "Thank you! Let me confirm the information you've provided:" +:+ nl +:+ nl
  +:+ formatted_info +:+ nl +:+ nl
  +:+ "Is this information correct? Please say 'yes' to confirm or 'no' if you need to make any changes.".

Definition found_text (patient_type : string) (pi : PatientInfo) : string :=
  "Perfect! I've found your file. You are a " +:+ patient_type
  +:+ " patient. Now let me check available appointment slots for Dr. "
  +:+ fmt (preferred_doctor pi) +:+ " at " +:+ fmt (preferred_location pi)
  +:+ ".".

Definition first_time_text (pi : PatientInfo) : string :=
  "Thank you! It seems this is your first time with us. Welcome! Let me check available appointment slots for Dr. "
  +:+ fmt (preferred_doctor pi) +:+ " at " +:+ fmt (preferred_location pi)
  +:+ ".".

Definition slots_text (duration slots_str : string) (pi : PatientInfo)
  : string :=
  "Great! Here are some available " +:+ duration
  +:+ " appointment slots with Dr. " +:+ fmt (preferred_doctor pi) +:+ " at "
  +:+ fmt (preferred_location pi) +:+ ":" +:+ nl +:+ nl +:+ slots_str +:+ nl
  +:+ nl
  +:+ "Which slot would you prefer? Please select by number or tell me which one works best for you.".

Definition no_slots_text (pi : PatientInfo) : string :=
  "I'm sorry, but I couldn't find any available slots with Dr. "
  +:+ fmt (preferred_doctor pi) +:+ " at " +:+ fmt (preferred_location pi)
  +:+ " in the next two weeks. Would you like me to check with a different doctor or location?".

Definition clarify_text : string :=
  "I'm sorry, I couldn't determine which slot you prefer. Please reply with the number of your chosen option (e.g., '1', 'Option 2').".

Definition confirmed_text (appointment_id : string) (slot : option string)
    (pi : PatientInfo) : string :=
  "Excellent! Your appointment is confirmed with ID **" +:+ appointment_id
  +:+ "** for:" +:+ nl +:+ nl +:+ "**" +:+ fmt slot +:+ "**" +:+ nl
  +:+ "**Doctor:** " +:+ fmt (preferred_doctor pi) +:+ nl
  +:+ "**Location:** " +:+ fmt (preferred_location pi) +:+ nl +:+ nl
  +:+ "What is a good email address to send the intake form to?".

Definition booking_error_text : string :=
  "I'm sorry, there was an error while trying to book your appointment. Please try again.".

Definition email_sent_text (email : string) (s : AgentState)
    (pi : PatientInfo) : string :=
  "Perfect! I've sent the intake form to " +:+ email
  +:+ ". Your appointment is all set!" +:+ nl +:+ nl
  +:+ "**Appointment Summary:**" +:+ nl
  +:+ "- **ID:** " +:+ fmt (appointment_id s) +:+ nl
  +:+ "- **Patient:** " +:+ fmt (full_name pi) +:+ nl
  +:+ "- **Date/Time:** " +:+ fmt (chosen_slot s) +:+ nl
  +:+ "- **Doctor:** " +:+ fmt (preferred_doctor pi) +:+ nl
  +:+ "- **Location:** " +:+ fmt (preferred_location pi) +:+ nl +:+ nl
  +:+ "Is there anything else I can help you with?".

Definition email_retry_text : string :=
  "I didn't catch a valid email address. Could you please provide it so I can send the forms?".

(** *** What the outside gives a handler *)

(** The selection oracle's JSON object at the types [SlotSelection]
    declares: the three keys read for the number hold an [int] or nothing,
    the three read for the text a [str] or nothing. *)
Record SelectionResult := mkSelectionResult {
  r_slotNumber : option Z;
  r_slot_number : option Z;
  r_number : option Z;
  r_selectedSlot : option string;
  r_selected_slot : option string;
  r_slot : option string
}.

(** [a or b] on [int | None] values: [None] and [0] are falsy. *)
Definition or_int (a b : option Z) : option Z :=
  match a with
  | Some n => if n =? 0 then b else a
  | None => b
  end.

(** "Extract possible keys" of [selection_parser_node]. *)
Definition slot_number_of (result : SelectionResult) : option Z :=
  or_int (or_int (r_slotNumber result) (r_slot_number result))
         (r_number result).

Definition selected_slot_of (result : SelectionResult) : option string :=
  Py.or_ (Py.or_ (r_selectedSlot result) (r_selected_slot result))
         (r_slot result).

(** Everything a handler reads from outside the state during one call. *)
Record Inputs := mkInputs {
  in_raw_info : gmap string (option string);
  in_selection : SelectionResult;
  in_insurance : gmap string (option string);
  in_now : Z;
  in_app_rows : option (list (option Z));
  in_write_ok : bool;
  in_fuel : nat
}.

(** [normalize_and_validate_insurance_info], as its [patient_email]. *)
Definition normalize_and_validate_insurance_info
    (data : gmap string (option string)) : option string :=
  let get := dict_get data in
  Py.or_ (Py.or_ (get "patientEmail") (get "patient_email")) (get "email").

(** ** [main_graph.py]: the node handlers *)
Section Graph.

Variable scorer : string -> string -> Z.
Variable strptime : string -> option Z.
(** The module-level tools. *)
Variable patient_db : list PatientDB.Row.
Variable calendar_tool : CalendarTools.

Definition greeting_node (raw_info : gmap string (option string))
    (state : AgentState) : Outcome AgentState :=
  if bool_decide (length (messages state) = 1%nat /\ patient_info state = None)
  then Ok (set_stage greeting (say greeting_text state))
  else
    let patient_info' := normalize_and_validate_patient_info raw_info in
    let updated_info :=
      match patient_info state with
      | Some existing_info => merge_patient_info patient_info' existing_info
      | None => patient_info'
      end in
    let state := set_patient_info updated_info state in
    if is_patient_info_complete updated_info then
      Ok (set_stage information_confirmation state)
    else
      (* the message is never [None] here, see [missing_message_some] *)
      let missing_msg := default "" (get_missing_info_message updated_info) in
      Ok (set_stage greeting (say missing_msg state)).

Definition affirmative_words : list string :=
  ["yes"; "correct"; "right"; "confirm"; "looks good"].

Definition negative_words : list string :=
  ["no"; "wrong"; "incorrect"; "change"; "update"].

Definition information_confirmation_node (state : AgentState)
  : Outcome AgentState :=
  let last_user_message :=
    (fun c => Py.strip (Py.lower c)) <$> last_user_content (messages state) in
  let said (words : list string) : bool :=
    match last_user_message with
    | Some m =>
        Py.truthy last_user_message
        && Py.any (fun word => Py.contains word m) words
    | None => false
    end in
  if said affirmative_words then Ok (set_stage patient_lookup state)
  else if said negative_words then
    Ok (set_stage greeting (say update_text state))
  else
    pi ← subscript (patient_info state);
    let formatted_info := format_patient_info_for_confirmation pi in
    Ok (set_stage information_confirmation
          (say (confirm_text formatted_info) state)).

(** [state.update(lookup_result)] stores [patient_id] and [is_new_patient];
    the third key of the result, [patient_details], is not a key of
    [AgentState] and is read nowhere.  A [None] name is not a query the
    matcher takes: [TypeError]. *)
Definition patient_lookup_node (state : AgentState) : Outcome AgentState :=
  pi ← subscript (patient_info state);
  name ← match full_name pi with
         | Some n => Ok n
         | None => Raise TypeError
         end;
  match PatientDB.lookup_patient scorer name (date_of_birth pi) patient_db with
  | Ok (pid, is_new) =>
      let state := set_patient pid is_new state in
      let patient_type := if is_new then "new" else "returning" in
      Ok (set_stage find_slots (say (found_text patient_type pi) state))
  | Raise PatientNotFoundError =>
      let state := set_patient "NEW_PATIENT" true state in
      Ok (set_stage find_slots (say (first_time_text pi) state))
  | Raise e => Raise e
  | OutOfFuel => OutOfFuel
  end.

Definition find_slots_node (inp : Inputs) (state : AgentState)
  : Outcome AgentState :=
  let is_new := default true (is_new_patient state) in
  let start_date := in_now inp in
  let end_date := start_date + DT.timedelta_days 14 in
  let calendar := _load_booked_slots calendar_tool (in_app_rows inp) in
  slots ← find_available_slots (in_fuel inp) calendar is_new start_date
            end_date;
  let state := set_available_slots slots state in
  match slots with
  | _ :: _ =>
      let slots_str := Py.join nl (numbered 0 (take 5 slots)) in
      let duration := if is_new then "60 minutes" else "30 minutes" in
      pi ← subscript (patient_info state);
      Ok (set_stage selection_parser
            (say (slots_text duration slots_str pi) state))
  | [] =>
      pi ← subscript (patient_info state);
      Ok (set_stage completed (say (no_slots_text pi) state))
  end.

(** The [for] loop over the slots of [selection_parser_node]: the first
    slot that contains the text or is contained in it. *)
Definition first_related (selected_slot : string) (slots : list string)
  : option string :=
  List.find (fun slot => Py.contains selected_slot slot
                         || Py.contains slot selected_slot) slots.

Definition selection_parser_node (result : SelectionResult)
    (state : AgentState) : Outcome AgentState :=
  slots ← subscript (available_slots state);
  let slot_number := slot_number_of result in
  let selected_slot := selected_slot_of result in
  let by_text :=
    match selected_slot with
    | Some t =>
        if Py.truthy selected_slot && negb (String.eqb t "AMBIGUOUS")
        then first_related t slots else None
    | None => None
    end in
  let otherwise :=
    match by_text with
    | Some slot => Ok (set_stage confirmation (set_chosen_slot slot state))
    | None => Ok (set_stage find_slots (say clarify_text state))
    end in
  match slot_number with
  | Some n =>
      if (1 <=? n) && (n <=? Z.of_nat (length slots)) then
        match slots !! Z.to_nat (n - 1) with
        | Some slot => Ok (set_stage confirmation (set_chosen_slot slot state))
        | None => Raise IndexError
        end
      else otherwise
  | None => otherwise
  end.

(** The [try] body of [confirmation_node]: the state as the body leaves it,
    and the exception that ended it, if one did.  The state is a dictionary
    updated in place, so an assignment made before the exception stays. *)
Definition confirmation_try (inp : Inputs) (state : AgentState)
  : AgentState * option Exn :=
  match patient_id state, chosen_slot state, is_new_patient state with
  | Some pid, Some slot, Some _ =>
      match ExportTools.book_appointment strptime (in_now inp)
              (in_write_ok inp) pid slot (is_new_patient state) with
      | inr (appointment_id, _) =>
          let state := set_appointment_id appointment_id state in
          match patient_info state with
          | Some pi =>
              (set_stage email_collection
                 (say (confirmed_text appointment_id (chosen_slot state) pi)
                      state), None)
          | None => (state, Some KeyError)
          end
      | inl e => (state, Some e)
      end
  | _, _, _ => (state, Some KeyError)
  end.

(** [confirmation_node]: [except Exception] catches every exception. *)
Definition confirmation_node (inp : Inputs) (state : AgentState)
  : Outcome AgentState :=
  let '(state, exn) := confirmation_try inp state in
  match exn with
  | None => Ok state
  | Some _ => Ok (set_stage find_slots (say booking_error_text state))
  end.

Definition email_collection_node (raw_info : gmap string (option string))
    (state : AgentState) : Outcome AgentState :=
  let email := normalize_and_validate_insurance_info raw_info in
  match email with
  | Some e =>
      if Py.truthy email then
        let state := set_patient_email e state in
        pi ← subscript (patient_info state);
        Ok (set_stage completed (say (email_sent_text e state pi) state))
      else Ok (set_stage email_collection (say email_retry_text state))
  | None => Ok (set_stage email_collection (say email_retry_text state))
  end.

(** ** [main_graph.py]: the router *)

(** What [route_conversation] returns: [END] or the name of a stage. *)
Inductive Route := END | Goto (st : Stage).

Definition route_conversation (state : AgentState) : Route :=
  let stage := default greeting (conversation_stage state) in
  if decide (stage = find_slots) then Goto find_slots
  else
    match last (messages state) with
    | Some m => if String.eqb (role m) "assistant" then END else Goto stage
    | None => Goto stage
    end.

(** [router_map] and the nodes of the graph: the handler a route leads to;
    [END] and ['completed'] end the run. *)
Definition run_node (st : Stage) (inp : Inputs) (state : AgentState)
  : option (Outcome AgentState) :=
  match st with
  | greeting => Some (greeting_node (in_raw_info inp) state)
  | information_confirmation => Some (information_confirmation_node state)
  | patient_lookup => Some (patient_lookup_node state)
  | find_slots => Some (find_slots_node inp state)
  | selection_parser => Some (selection_parser_node (in_selection inp) state)
  | confirmation => Some (confirmation_node inp state)
  | email_collection => Some (email_collection_node (in_insurance inp) state)
  | completed => None
  end.

(** The state the interface starts a conversation with: the message log and
    nothing else. *)
Definition initial_state (msgs : list Message) : AgentState :=
  mkAgentState msgs None None None None None None None None.

(** The states a conversation goes through: it starts from an initial
    state; the interface rebuilds the message log between two runs; the
    router dispatches a handler, which returns. *)
Inductive reachable : AgentState -> Prop :=
  | reach_init msgs : reachable (initial_state msgs)
  | reach_log s msgs : reachable s -> reachable (set_messages msgs s)
  | reach_node s st inp s' :
      reachable s ->
      route_conversation s = Goto st ->
      run_node st inp s = Some (Ok s') ->
      reachable s'.

End Graph.

(** ** Replaying a conversation *)

(** What happens between two states: the user types a message once the run
    of the graph has ended, or the router dispatches a handler with its
    inputs. *)
Inductive Event :=
  | UserSays (text : string)
  | Handle (inp : Inputs).

Section Replay.

Variable scorer : string -> string -> Z.
Variable strptime : string -> option Z.
Variable patient_db : list PatientDB.Row.
Variable calendar_tool : CalendarTools.

Fixpoint replay (events : list Event) (state : AgentState)
  : option AgentState :=
  match events with
  | [] => Some state
  | UserSays text :: rest =>
      match route_conversation state with
      | END | Goto completed =>
          replay rest
            (set_messages (messages state ++ [mkMessage "user" text]) state)
      | Goto _ => None
      end
  | Handle inp :: rest =>
      match route_conversation state with
      | Goto st =>
          match run_node scorer strptime patient_db calendar_tool st inp
                  state with
          | Some (Ok state') => replay rest state'
          | _ => None
          end
      | END => None
      end
  end.

End Replay.

(** ** A conversation to replay *)
Module Example.

Definition scorer (a b : string) : Z := if String.eqb a b then 100 else 0.

(** A [strptime] that knows one text. *)
Definition strptime (text : string) : option Z :=
  if String.eqb text "Monday, September 08, 2025 10:00 AM"
  then Some (DT.datetime 2025 9 8 10 0 0) else None.

Definition patient_db : list PatientDB.Row :=
  [PatientDB.mkRow "P001" "John" "Smith" "1990-06-10" 3;
   PatientDB.mkRow "P002" "Jane" "Doe" "1985-03-15" 0].

Definition calendar_tool : CalendarTools :=
  mkCalendarTools APPOINTMENT_DURATIONS
    [mkScheduleRow "Dr. Smith" (DT.datetime 2025 9 8 9 0 0)
       (DT.datetime 2025 9 8 12 0 0)] ∅.

Definition extracted : gmap string (option string) :=
  <["fullName" := Some "Jane Doe"]>
    (<["dateOfBirth" := Some "1985-03-15"]>
       (<["preferredDoctor" := Some "Smith"]>
          (<["preferredLocation" := Some "Downtown Clinic"]> ∅))).

(** The inputs of a handler call on Monday 2025-09-08 at 08:00: the
    oracles' answers, an appointments file without rows, and whether the
    write to it succeeds. *)
Definition inputs (write_ok : bool) : Inputs :=
  {| in_raw_info := extracted;
     in_selection := mkSelectionResult (Some 2) None None None None None;
     in_insurance := <["patientEmail" := Some "jane@example.com"]> ∅;
     in_now := DT.datetime 2025 9 8 8 0 0;
     in_app_rows := Some [];
     in_write_ok := write_ok;
     in_fuel := 8 |}.

(** The user greets, gives the four fields, confirms them, and picks the
    second slot; the booking is then attempted. *)
Definition conversation (write_ok : bool) : list Event :=
  [Handle (inputs write_ok);
   UserSays "Jane Doe, 1985-03-15, Dr. Smith, Downtown Clinic";
   Handle (inputs write_ok); Handle (inputs write_ok);
   UserSays "Yes, that's correct.";
   Handle (inputs write_ok); Handle (inputs write_ok);
   Handle (inputs write_ok);
   UserSays "Option 2";
   Handle (inputs write_ok); Handle (inputs write_ok)].

Definition start : AgentState := initial_state [mkMessage "user" "Hi there!"].

Definition replayed (write_ok : bool) : option AgentState :=
  replay scorer strptime patient_db calendar_tool (conversation write_ok)
    start.

(** The state [confirmation_node] returns when the write fails, and the
    state in which that run of the graph then ends: the router goes on to
    [find_slots_node], which lists the slots again. *)
Definition failed_state : AgentState := default start (replayed false).

Definition waiting_state : AgentState :=
  default start
    (replay scorer strptime patient_db calendar_tool [Handle (inputs false)]
       failed_state).

End Example.

(** ** The statements of the specification, as definitions *)

(** The four identity fields with the names the missing-info message gives
    them, in the order of the specification. *)
Definition identity_fields : list ((PatientInfo -> option string) * string) :=
  [(full_name, "your full name"); (date_of_birth, "your date of birth");
   (preferred_doctor, "your preferred doctor");
   (preferred_location, "your preferred location")].

(** The names of the fields that are absent from a record. *)
Definition spec_missing (pi : PatientInfo) : list string :=
  snd <$> List.filter (fun fl => negb (Py.truthy (fl.1 pi))) identity_fields.

(** "X, Y, and Z": the Oxford-comma list of three names or more. *)
Fixpoint spec_oxford (names : list string) : string :=
  match names with
  | [] => ""
  | [z] => "and " +:+ z
  | x :: rest => x +:+ ", " +:+ spec_oxford rest
  end.

Definition spec_missing_message (names : list string) : option string :=
  match names with
  | [] => None
  | [x] => Some ("I still need " +:+ x +:+ provide_suffix)
  | [x; y] =>
      Some ("I still need " +:+ x +:+ " and " +:+ y +:+ provide_suffix)
  | _ => Some ("I still need " +:+ spec_oxford names +:+ provide_suffix)
  end.

(** "merged = new_value if new_value is not empty else old_value". *)
Definition spec_merge_field (new_value old_value : option string)
  : option string :=
  match new_value with
  | Some v => if String.eqb v "" then old_value else Some v
  | None => old_value
  end.





(** What a reachable state satisfies: beyond [greeting] the patient record
    is there; an appointment identifier is there only from
    [email_collection] on; a chosen slot is there only from [find_slots]
    on. *)
Definition at_least (st : Stage) (s : AgentState) : Prop :=
  exists st', conversation_stage s = Some st'
              /\ (stage_rank st <= stage_rank st')%nat.

Record state_invariant (s : AgentState) : Prop := mkInvariant {
  inv_patient_info :
    forall st, conversation_stage s = Some st -> st ≠ greeting ->
               patient_info s ≠ None;
  inv_appointment_id : appointment_id s ≠ None -> at_least email_collection s;
  inv_chosen_slot : chosen_slot s ≠ None -> at_least find_slots s
}.






(** "[chosen_slot] set implies the stage is at or beyond [st]". *)
Definition chosen_slot_implies_at_least (st : Stage) (s : AgentState) : Prop :=
  chosen_slot s ≠ None -> at_least st s.

(** ** [main_graph.py]: one run of the graph *)
Section Run.

Variable scorer : string -> string -> Z.
Variable strptime : string -> option Z.
Variable patient_db : list PatientDB.Row.
Variable calendar_tool : CalendarTools.

(** The compiled graph: the router is the entry point and follows every
    node; [END] and ['completed'] end the run.  [inps] holds the inputs of
    the handler calls, one for each; the result is [None] when the run needs
    more calls than there are inputs. *)
Fixpoint invoke (inps : list Inputs) (state : AgentState)
  : option (Outcome AgentState) :=
  match route_conversation state with
  | END | Goto completed => Some (Ok state)
  | Goto st =>
      match inps with
      | [] => None
      | inp :: rest =>
          match run_node scorer strptime patient_db calendar_tool st inp
                  state with
          | Some (Ok state') => invoke rest state'
          | Some (Raise e) => Some (Raise e)
          | Some OutOfFuel => Some OutOfFuel
          | None => Some (Ok state)
          end
      end
  end.

End Run.

(** The handler calls a run can still make from a stage. *)
Definition stage_depth (st : Stage) : nat :=
  match st with
  | greeting => 4
  | information_confirmation => 3
  | patient_lookup => 2
  | find_slots => 1
  | selection_parser => 3
  | confirmation => 2
  | email_collection => 1
  | completed => 0
  end.

Definition depth (s : AgentState) : nat :=
  match route_conversation s with
  | END => 0
  | Goto st => stage_depth st
  end.

(** The last message of the log was written by the assistant. *)
Definition assistant_last (s : AgentState) : Prop :=
  exists c, last (messages s) = Some (mkMessage "assistant" c).

(** What a handler that returns does to the log and the stage: it leaves
    the log alone and moves to [quiet], or it appends one message of the
    assistant and moves to one of [spoken]. *)
Definition handler_effect (quiet : option Stage) (spoken : list Stage)
    (s s' : AgentState) : Prop :=
  (messages s' = messages s /\ conversation_stage s' = quiet
   /\ quiet ≠ None)
  \/ (exists c st,
        messages s' = (messages s ++ [mkMessage "assistant" c])%list
        /\ conversation_stage s' = Some st /\ st ∈ spoken).


(** The texts the two [strftime] calls of [find_available_slots] can print:
    a day name, a month name, two digits; two digits, two digits, AM or PM. *)
Definition ten_digits : list ascii :=
  ["0"; "1"; "2"; "3"; "4"; "5"; "6"; "7"; "8"; "9"]%char.

Definition day_names : list string :=
  [""; "Monday"; "Tuesday"; "Wednesday"; "Thursday"; "Friday"; "Saturday";
   "Sunday"].

Definition month_names : list string :=
  [""; "January"; "February"; "March"; "April"; "May"; "June"; "July";
   "August"; "September"; "October"; "November"; "December"].

Definition two_digits : list string :=
  a ← ten_digits; b ← ten_digits; [String a (String b "")].

Definition all_dates : list string :=
  d ← day_names; m ← month_names; n ← two_digits;
  [d +:+ ", " +:+ m +:+ " " +:+ n].

Definition all_times : list string :=
  h ← two_digits; m ← two_digits; p ← ["AM"; "PM"];
  [h +:+ ":" +:+ m +:+ " " +:+ p].

(** What the booking pattern needs of a date text: it is one line, not
    empty, [strip] leaves it alone, and " at " does not occur in it before
    the separator that follows it. *)
Definition date_text_ok (d : string) : bool :=
  String.eqb (ExportTools.take_dots d) d && negb (String.eqb d "")
  && String.eqb (Py.strip d) d && negb (Py.contains " at " (d +:+ " at")).

Definition time_text_ok (t : string) : bool :=
  String.eqb (ExportTools.take_dots t) t && negb (String.eqb t "")
  && String.eqb (Py.strip t) t.

(** ** [agents/scheduling_agent.py] *)






(** ** [agents/reminder_agent.py] *)
Module Reminder.

(** Here a datetime is a number of microseconds, the resolution of
    [datetime.now()]; [timedelta(seconds=n)] is [seconds n]. *)
Definition seconds (n : Z) : Z := 1000000 * n.

(** A row of [appointments_df], with the [appointment_datetime] column that
    [_load_appointments] adds. *)
Record Appointment := mkAppointment {
  appointment_id : string;
  patient_id : string;
  doctor_name : string;
  appointment_datetime : Z;
  status : string
}.

Record Patient := mkPatient {
  p_patient_id : string;
  first_name : string;
  last_name : string;
  phone : string;
  email : string
}.

Record ReminderAgent := mkReminderAgent {
  appointments_df : list Appointment;
  patients_df : list Patient;
  sent_reminders : gset (string * nat)
}.

(** [_load_appointments]: the confirmed rows of the file, no row when the
    file is missing or cannot be read. *)
Definition _load_appointments (file : option (list Appointment))
  : list Appointment :=
  match file with
  | Some rows => List.filter (fun a => String.eqb (status a) "Confirmed") rows
  | None => []
  end.

(** One reminder handed to [send_sms] and [send_reminder_email]; [number]
    is the second component of the pair put into [sent_reminders]. *)
Record Delivery := mkDelivery {
  number : nat;
  for_appointment : string;
  to_phone : string;
  to_email : string;
  subject : string;
  body : string
}.

Definition tag (d : Delivery) : string * nat := (for_appointment d, number d).

(** [demo or value]. *)
Definition demo_or (demo : option string) (value : string) : string :=
  match demo with
  | Some d => if String.eqb d "" then value else d
  | None => value
  end.

Definition clock (appointment_time : Z) : string :=
  DT.strftime_time12 (appointment_time / 1000000).

(** The body of the [for] loop of [check_and_send_reminders] for one
    appointment: the reminder it sends, if any. *)
Definition remind (patients : list Patient) (now : Z)
    (demo_phone demo_email : option string) (sent : gset (string * nat))
    (appointment : Appointment) : option Delivery :=
  let appointment_id := appointment_id appointment in
  let appointment_time := appointment_datetime appointment in
  let time_to_appointment := appointment_time - now in
  match
    List.filter
      (fun p => String.eqb (p_patient_id p) (patient_id appointment)) patients
  with
  | [] => None
  | patient_details :: _ =>
      let patient_name :=
        first_name patient_details +:+ " " +:+ last_name patient_details in
      let patient_phone := demo_or demo_phone (phone patient_details) in
      let patient_email := demo_or demo_email (email patient_details) in
      if (seconds 14 <? time_to_appointment)
         && (time_to_appointment <=? seconds 15)
         && bool_decide ((appointment_id, 1%nat) ∉ sent) then
        Some (mkDelivery 1 appointment_id patient_phone patient_email
                ("Appointment Reminder: Today at " +:+ clock appointment_time)
                ("Hi " +:+ patient_name
                 +:+ ", this is a reminder for your appointment today at "
                 +:+ clock appointment_time +:+ " with "
                 +:+ doctor_name appointment +:+ "."))
      else if (seconds 9 <? time_to_appointment)
              && (time_to_appointment <=? seconds 10)
              && bool_decide ((appointment_id, 2%nat) ∉ sent) then
        Some (mkDelivery 2 appointment_id patient_phone patient_email
                "Action Required: Your Appointment in 10 minutes (Simulated)"
                ("Hi " +:+ patient_name +:+ ", your appointment with "
                 +:+ doctor_name appointment
                 +:+ " is soon. Have you filled out the patient intake form? Please reply YES to confirm, or NO [REASON] to cancel."))
      else if (seconds 4 <? time_to_appointment)
              && (time_to_appointment <=? seconds 5)
              && bool_decide ((appointment_id, 3%nat) ∉ sent) then
        Some (mkDelivery 3 appointment_id patient_phone patient_email
                "FINAL REMINDER: Your Appointment is very soon"
                ("FINAL REMINDER: Your appointment with "
                 +:+ doctor_name appointment +:+ " is in a few moments at "
                 +:+ clock appointment_time
                 +:+ ". Please reply YES to confirm."))
      else None
  end.

(** The [for] loop: the reminders sent, in order, and the set of sent
    reminders after it. *)
Fixpoint remind_all (patients : list Patient) (now : Z)
    (demo_phone demo_email : option string) (sent : gset (string * nat))
    (appointments : list Appointment) : list Delivery * gset (string * nat) :=
  match appointments with
  | [] => ([], sent)
  | appointment :: rest =>
      match remind patients now demo_phone demo_email sent appointment with
      | Some d =>
          let '(out, sent') :=
            remind_all patients now demo_phone demo_email (sent ∪ {[tag d]})
              rest in
          (d :: out, sent')
      | None => remind_all patients now demo_phone demo_email sent rest
      end
  end.

(** [check_and_send_reminders] at the time [now]: what it sends and the
    agent afterwards. *)
Definition check_and_send_reminders (self : ReminderAgent) (now : Z)
    (demo_phone demo_email : option string)
  : list Delivery * ReminderAgent :=
  let '(out, sent) :=
    remind_all (patients_df self) now demo_phone demo_email
      (sent_reminders self) (appointments_df self) in
  (out, mkReminderAgent (appointments_df self) (patients_df self) sent).

(** The time window of a reminder, in seconds before the appointment. *)
Definition window (k : nat) (time_to_appointment : Z) : Prop :=
  match k with
  | 1%nat => seconds 14 < time_to_appointment <= seconds 15
  | 2%nat => seconds 9 < time_to_appointment <= seconds 10
  | 3%nat => seconds 4 < time_to_appointment <= seconds 5
  | _ => False
  end.

End Reminder.

(** What a booking leaves in the state.  The stage [completed] is also
    where [find_slots_node] ends a conversation without a slot, so the
    booking is told by the appointment identifier: at [confirmation] and
    once there is an identifier the chosen slot is one of the slots listed;
    at [email_collection] there is an identifier; an address is stored only
    in a completed conversation with an identifier, and is not empty; a
    completed conversation with an identifier has the address. *)
Record state_booked (s : AgentState) : Prop := mkBooked {
  booked_offer :
    conversation_stage s = Some confirmation \/ appointment_id s ≠ None ->
    exists slots slot,
      available_slots s = Some slots /\ chosen_slot s = Some slot
      /\ slot ∈ slots;
  booked_id :
    conversation_stage s = Some email_collection -> appointment_id s ≠ None;
  booked_email :
    patient_email s ≠ None ->
    conversation_stage s = Some completed /\ appointment_id s ≠ None
    /\ exists e, patient_email s = Some e /\ e ≠ "";
  booked_completed :
    conversation_stage s = Some completed -> appointment_id s ≠ None ->
    patient_email s ≠ None
}.

(** The conversation of [Example] with a write that succeeds, followed by
    the patient's address. *)
Definition completed_state : AgentState :=
  default Example.start
    (replay Example.scorer Example.strptime Example.patient_db
       Example.calendar_tool
       (Example.conversation true
        ++ [UserSays "jane@example.com"; Handle (Example.inputs true)])%list
       Example.start).

(** * Properties *)

(** ** The merge of patient information *)

Lemma or_is_spec_merge (a b : option string) :
  Py.or_ a b = spec_merge_field a b.
Proof.
  unfold Py.or_, spec_merge_field, Py.truthy.
  destruct a as [v|]; [|reflexivity].
  destruct (String.eqb v ""); reflexivity.
Qed.

Lemma or_keeps_some (a b : option string) : b ≠ None -> Py.or_ a b ≠ None.
Proof.
  unfold Py.or_, Py.truthy. intros Hb.
  destruct a as [v|]; [|exact Hb].
  destruct (String.eqb v ""); simpl; [exact Hb|discriminate].
Qed.

Lemma or_idempotent (a b : option string) : Py.or_ a (Py.or_ a b) = Py.or_ a b.
Proof. unfold Py.or_. destruct (Py.truthy a); reflexivity. Qed.

(** C4. The merge of [greeting_node] is fieldwise "the new value if it is
    not empty, else the old value": a field that is known in the prior record
    is known in the merged record, whatever was extracted; merging the same
    extracted record twice gives what merging it once gives; and this merge
    is what [greeting_node] stores when the state holds a prior record. *)
Theorem merge_policy (new old : PatientInfo) :
  Forall (fun f : PatientInfo -> option string =>
            f (merge_patient_info new old) = spec_merge_field (f new) (f old)
            /\ (f old ≠ None -> f (merge_patient_info new old) ≠ None))
         (fst <$> identity_fields)
  /\ merge_patient_info new (merge_patient_info new old)
     = merge_patient_info new old
  /\ (forall raw state,
        patient_info state = Some old ->
        normalize_and_validate_patient_info raw = new ->
        exists state',
          greeting_node raw state = Ok state'
          /\ patient_info state' = Some (merge_patient_info new old)).
Proof.
  split; [|split].
  - repeat constructor; simpl;
      solve [apply or_is_spec_merge | apply or_keeps_some].
  - unfold merge_patient_info; simpl. f_equal; apply or_idempotent.
  - intros raw state Hold Hnew. unfold greeting_node.
    rewrite bool_decide_eq_false_2 by (rewrite Hold; intros [_ ?]; discriminate).
    rewrite Hold, Hnew.
    destruct (is_patient_info_complete _); eexists; split; reflexivity.
Qed.

Lemma merge_policy_witness :
  let new := mkPatientInfo None (Some "") (Some "Dr. Smith") None in
  let old := mkPatientInfo (Some "Jane Doe") (Some "1985-03-15") None None in
  merge_patient_info new old
  = mkPatientInfo (Some "Jane Doe") (Some "1985-03-15") (Some "Dr. Smith") None
  /\ date_of_birth (merge_patient_info new old) ≠ None.
Proof.
  intros new old. split; [reflexivity|].
  pose proof (merge_policy new old) as [Hf _].
  simpl in Hf.
  apply Forall_cons in Hf as [_ Hf]. apply Forall_cons in Hf as [[_ H] _].
  apply H. discriminate.
Defined.

(** ** The missing-info message *)

Lemma missing_fields_spec (pi : PatientInfo) :
  missing_fields pi = spec_missing pi.
Proof.
  unfold missing_fields, spec_missing, append_if_missing, identity_fields.
  simpl.
  destruct (Py.truthy (full_name pi)), (Py.truthy (date_of_birth pi)),
    (Py.truthy (preferred_doctor pi)), (Py.truthy (preferred_location pi));
    reflexivity.
Qed.

(** The message is there whenever the record is incomplete, which is when
    [greeting_node] asks for it. *)
Lemma missing_message_some (pi : PatientInfo) :
  is_patient_info_complete pi = false ->
  is_Some (get_missing_info_message pi).
Proof.
  unfold is_patient_info_complete, get_missing_info_message, missing_fields,
    append_if_missing.
  destruct (Py.truthy (full_name pi)), (Py.truthy (date_of_birth pi)),
    (Py.truthy (preferred_doctor pi)), (Py.truthy (preferred_location pi));
    simpl; intros H; try discriminate H; eexists; reflexivity.
Qed.

(** C6. The missing-info message names the absent fields among full name,
    date of birth, preferred doctor and preferred location in that order:
    none absent gives no message, one gives "I still need X.", two are joined
    by "and", three or four make an Oxford-comma list; and a record that
    lacks exactly the doctor and the location gives the sentence of the
    specification. *)
Theorem missing_info_message (pi : PatientInfo) :
  get_missing_info_message pi = spec_missing_message (spec_missing pi)
  /\ get_missing_info_message
       (mkPatientInfo (Some "Jane Doe") (Some "1985-03-15") None None)
     = Some "I still need your preferred doctor and your preferred location. Could you please provide that information?".
Proof.
  split; [|reflexivity].
  unfold get_missing_info_message. rewrite missing_fields_spec.
  unfold spec_missing, identity_fields. simpl.
  destruct (Py.truthy (full_name pi)), (Py.truthy (date_of_birth pi)),
    (Py.truthy (preferred_doctor pi)), (Py.truthy (preferred_location pi));
    reflexivity.
Qed.

(** ** The router *)

Lemma route_find_slots (s : AgentState) :
  conversation_stage s = Some find_slots ->
  route_conversation s = Goto find_slots.
Proof. intros H. unfold route_conversation. rewrite H. reflexivity. Qed.

(** C3. The router returns [find_slots] whenever the stage is [find_slots],
    whoever wrote the last message; for every other stage it returns [END]
    exactly when the message log is not empty and its last message has the
    role [assistant], and the stage otherwise, [greeting] standing for a
    stage that is not set. *)
Theorem route_conversation_spec (s : AgentState) :
  let stage := default greeting (conversation_stage s) in
  let last_is_assistant :=
    exists m, last (messages s) = Some m /\ role m = "assistant" in
  (stage = find_slots -> route_conversation s = Goto find_slots)
  /\ (stage ≠ find_slots ->
      (route_conversation s = END <-> last_is_assistant)
      /\ (~ last_is_assistant -> route_conversation s = Goto stage)).
Proof.
  intros stage last_is_assistant. unfold route_conversation. fold stage.
  split.
  - intros ->. reflexivity.
  - intros Hne. destruct (decide (stage = find_slots)) as [|_]; [done|].
    subst last_is_assistant.
    destruct (last (messages s)) as [m|] eqn:Hlast.
    + destruct (String.eqb (role m) "assistant") eqn:Hrole.
      * apply String.eqb_eq in Hrole. split.
        -- split; [eauto|done].
        -- intros Hn. exfalso. apply Hn. eauto.
      * apply String.eqb_neq in Hrole. split.
        -- split; [done|]. intros (m' & [= <-] & ?). done.
        -- done.
    + split.
      * split; [done|]. intros (m' & ? & ?). done.
      * done.
Qed.

Lemma route_conversation_spec_witness :
  let waiting :=
    mkAgentState [mkMessage "user" "hi"; mkMessage "assistant" "hello"]
      None None None None None None None (Some greeting) in
  let listing :=
    mkAgentState [mkMessage "user" "hi"; mkMessage "assistant" "hello"]
      None None None None None None None (Some find_slots) in
  route_conversation listing = Goto find_slots
  /\ route_conversation waiting = END.
Proof.
  intros waiting listing. split.
  - destruct (route_conversation_spec listing) as [H _].
    apply H. reflexivity.
  - destruct (route_conversation_spec waiting) as [_ H].
    apply H; [discriminate|]. eexists. split; reflexivity.
Defined.

(** ** The appointment identifier *)




(** ** The confirmation of the collected information *)

Lemma contains_nil_r (w : string) : w ≠ "" -> Py.contains w "" = false.
Proof. destruct w; [done|reflexivity]. Qed.

Lemma contains_tail (w : string) (c : ascii) (h : string) :
  Py.contains w h = true -> Py.contains w (String c h) = true.
Proof.
  intros H. change (Py.contains w (String c h))
    with (String.prefix w (String c h) || Py.contains w h).
  rewrite H. apply orb_true_r.
Qed.

Lemma contains_prefix (w h : string) :
  String.prefix w h = true -> Py.contains w h = true.
Proof. intros H. destruct h; cbn [Py.contains]; rewrite H; reflexivity. Qed.

Lemma prefix_cons_inv (a c : ascii) (w h : string) :
  String.prefix (String a w) (String c h) = true ->
  a = c /\ String.prefix w h = true.
Proof. cbn [String.prefix]. destruct (ascii_dec a c); [auto|discriminate]. Qed.

(** Whatever contains "incorrect" contains "correct". *)
Lemma contains_incorrect_correct (h : string) :
  Py.contains "incorrect" h = true -> Py.contains "correct" h = true.
Proof.
  induction h as [|c h IH]; [discriminate|].
  change (Py.contains "incorrect" (String c h))
    with (String.prefix "incorrect" (String c h) || Py.contains "incorrect" h).
  intros [Hp|Hc]%orb_true_iff.
  - apply prefix_cons_inv in Hp as [_ Hp].
    destruct h as [|c' h]; [discriminate|].
    apply prefix_cons_inv in Hp as [_ Hp].
    do 2 apply contains_tail. apply contains_prefix. exact Hp.
  - apply contains_tail. auto.
Qed.

(** What the handler makes of the last user message. *)
Lemma information_confirmation_affirmative (s : AgentState) (reply : string) :
  last_user_content (messages s) = Some reply ->
  Py.any (fun word => Py.contains word (Py.strip (Py.lower reply)))
         affirmative_words = true ->
  information_confirmation_node s = Ok (set_stage patient_lookup s).
Proof.
  intros Hlast Hany. unfold information_confirmation_node.
  rewrite Hlast. simpl fmap. cbv beta iota.
  destruct (Py.strip (Py.lower reply)) as [|c m] eqn:Hm; [discriminate|].
  unfold Py.truthy. simpl negb. rewrite andb_true_l.
  simpl in Hany |- *. rewrite Hany. reflexivity.
Qed.

Lemma information_confirmation_negative (s : AgentState) (reply : string) :
  last_user_content (messages s) = Some reply ->
  Py.any (fun word => Py.contains word (Py.strip (Py.lower reply)))
         affirmative_words = false ->
  Py.any (fun word => Py.contains word (Py.strip (Py.lower reply)))
         negative_words = true ->
  information_confirmation_node s
  = Ok (set_stage greeting (say update_text s)).
Proof.
  intros Hlast Haff Hneg. unfold information_confirmation_node.
  rewrite Hlast. simpl fmap. cbv beta iota.
  destruct (Py.strip (Py.lower reply)) as [|c m] eqn:Hm; [discriminate|].
  unfold Py.truthy. simpl negb. rewrite !andb_true_l.
  rewrite Haff, Hneg. reflexivity.
Qed.

Lemma information_confirmation_neither (s : AgentState) (reply : string)
    (pi : PatientInfo) :
  last_user_content (messages s) = Some reply ->
  patient_info s = Some pi ->
  Py.any (fun word => Py.contains word (Py.strip (Py.lower reply)))
         affirmative_words = false ->
  Py.any (fun word => Py.contains word (Py.strip (Py.lower reply)))
         negative_words = false ->
  information_confirmation_node s
  = Ok (set_stage information_confirmation
          (say (confirm_text (format_patient_info_for_confirmation pi)) s)).
Proof.
  intros Hlast Hpi Haff Hneg. unfold information_confirmation_node.
  rewrite Hlast, Hpi. simpl fmap. cbv beta iota.
  rewrite Haff, Hneg, !andb_false_r. reflexivity.
Qed.

(** The replies of the specification: "yes" confirms, "no" goes back,
    "maybe" asks again. *)
Example information_confirmation_replies :
  let pi :=
    mkPatientInfo (Some "Jane Doe") (Some "1985-03-15") (Some "Smith")
      (Some "Downtown Clinic") in
  let s reply :=
    mkAgentState [mkMessage "user" reply] (Some pi) None None None None None
      None (Some information_confirmation) in
  conversation_stage <$> information_confirmation_node (s "Yes")
  = Ok (Some patient_lookup)
  /\ conversation_stage <$> information_confirmation_node (s "no")
     = Ok (Some greeting)
  /\ information_confirmation_node (s "maybe")
     = Ok (set_stage information_confirmation
             (say (confirm_text (format_patient_info_for_confirmation pi))
                  (s "maybe"))).
Proof. vm_compute. repeat split. Qed.

(** C2, at the reply "incorrect".  The word is in the negative list, but
    it contains the affirmative word "correct", and the affirmative list is
    tried first: the stage becomes [patient_lookup], not [greeting], and so
    for every reply that contains "incorrect". *)
Theorem information_confirmation_incorrect_confirms (s : AgentState)
    (reply : string) :
  In "incorrect" negative_words
  /\ (last_user_content (messages s) = Some reply ->
      Py.contains "incorrect" (Py.strip (Py.lower reply)) = true ->
      information_confirmation_node s = Ok (set_stage patient_lookup s)
      /\ information_confirmation_node s
         ≠ Ok (set_stage greeting (say update_text s))).
Proof.
  split; [simpl; tauto|].
  intros Hlast Hc.
  assert (information_confirmation_node s = Ok (set_stage patient_lookup s))
    as Heq.
  { eapply information_confirmation_affirmative; [exact Hlast|].
    apply contains_incorrect_correct in Hc.
    unfold Py.any, affirmative_words. simpl existsb. rewrite Hc.
    rewrite orb_true_r. reflexivity. }
  split; [exact Heq|]. rewrite Heq. intros H. inversion H.
Qed.

Lemma information_confirmation_incorrect_confirms_witness :
  let s :=
    mkAgentState
      [mkMessage "user" "hi"; mkMessage "assistant" "is this correct?";
       mkMessage "user" "incorrect"]
      (Some (mkPatientInfo (Some "Jane Doe") (Some "1985-03-15")
               (Some "Dr. Smith") (Some "Downtown Clinic")))
      None None None None None None (Some information_confirmation) in
  conversation_stage <$> information_confirmation_node s
  = Ok (Some patient_lookup).
Proof.
  intros s.
  destruct (information_confirmation_incorrect_confirms s "incorrect")
    as [_ H].
  destruct H as [-> _]; reflexivity.
Defined.

(** ** The slot finder *)










(** ** The selection of a slot *)

Lemma append_cons (c : ascii) (a r : string) :
  String c a +:+ r = String c (a +:+ r).
Proof. reflexivity. Qed.

Lemma prefix_spec (a h : string) :
  String.prefix a h = true <-> exists r, h = a +:+ r.
Proof.
  revert h. induction a as [|c a IH]; intros h.
  - simpl. split; [eauto|]. intros _. destruct h; reflexivity.
  - destruct h as [|c' h].
    + simpl. split; [discriminate|]. intros [r [=]].
    + cbn [String.prefix]. destruct (ascii_dec c c') as [->|Hne].
      * rewrite IH. split; intros [r Hr]; exists r.
        -- rewrite append_cons. congruence.
        -- rewrite append_cons in Hr. congruence.
      * split; [discriminate|]. intros [r [= ? _]]. done.
Qed.



Lemma find_first {A} (f : A -> bool) (l : list A) (x : A) :
  List.find f l = Some x
  <-> exists i, l !! i = Some x /\ f x = true
                /\ forall j y, (j < i)%nat -> l !! j = Some y -> f y = false.
Proof.
  induction l as [|a l IH]; simpl.
  - split; [discriminate|]. intros (i & H & _). destruct i; discriminate.
  - destruct (f a) eqn:Hfa.
    + split.
      * intros [= <-]. exists 0%nat. repeat split; [exact Hfa|]. lia.
      * intros (i & Hi & Hx & Hfirst).
        destruct i as [|i]; [simpl in Hi; congruence|].
        specialize (Hfirst 0%nat a ltac:(lia) eq_refl). congruence.
    + rewrite IH. split.
      * intros (i & Hi & Hx & Hfirst). exists (S i).
        repeat split; [exact Hi|exact Hx|].
        intros [|j] y Hj Hy; [injection Hy as <-; exact Hfa|].
        apply (Hfirst j); [lia|exact Hy].
      * intros (i & Hi & Hx & Hfirst).
        destruct i as [|i]; [injection Hi as ->; congruence|].
        exists i. repeat split; [exact Hi|exact Hx|].
        intros j y Hj Hy. apply (Hfirst (S j)); [lia|exact Hy].
Qed.


Section Selection.

Variable result : SelectionResult.
Variable s : AgentState.
Variable slots : list string.
Hypothesis Hslots : available_slots s = Some slots.







End Selection.


(** ** The patient lookup *)

Section LookupProperties.

Variable scorer : string -> string -> Z.

Lemma extractOne_none (query : string) (choices : list string) (cutoff : Z) :
  PatientDB.extractOne scorer query choices cutoff = None ->
  forall c, c ∈ choices -> scorer query c < cutoff.
Proof.
  induction choices as [|d choices IH]; simpl; [intros _ c H; inversion H|].
  destruct (PatientDB.extractOne scorer query choices cutoff) as [[? ?]|].
  - destruct (_ && _); discriminate.
  - destruct (cutoff <=? scorer query d) eqn:Htest; [discriminate|].
    apply Z.leb_gt in Htest.
    intros _ c [->|Hc]%elem_of_cons; [exact Htest|auto].
Qed.

(** The match [extractOne] returns is one of the choices, its score is at
    least the cutoff, and no choice scores higher. *)
Lemma extractOne_spec (query : string) (choices : list string) (cutoff : Z)
    (m : string) (sc : Z) :
  PatientDB.extractOne scorer query choices cutoff = Some (m, sc) ->
  m ∈ choices /\ sc = scorer query m /\ cutoff <= sc
  /\ forall c, c ∈ choices -> scorer query c <= sc.
Proof.
  revert m sc. induction choices as [|c choices IH]; intros m sc; simpl;
    [discriminate|].
  destruct (PatientDB.extractOne scorer query choices cutoff)
    as [[c' sc']|] eqn:Hrest.
  - destruct (IH c' sc' eq_refl) as (Hin & Hsc & Hcut & Hmax).
    destruct ((cutoff <=? scorer query c) && (sc' <=? scorer query c))
      eqn:Htest; intros [= <- <-].
    + apply andb_true_iff in Htest as [?%Z.leb_le ?%Z.leb_le].
      repeat split; [left|lia|].
      intros x [->|Hx]%elem_of_cons; [lia|]. specialize (Hmax x Hx). lia.
    + repeat split; [right; exact Hin|exact Hsc|exact Hcut|].
      intros x [->|Hx]%elem_of_cons; [|auto].
      apply andb_false_iff in Htest as [?%Z.leb_gt|?%Z.leb_gt]; lia.
  - destruct (cutoff <=? scorer query c) eqn:Htest; intros [= <- <-].
    apply Z.leb_le in Htest. repeat split; [left|lia|].
    intros x [->|Hx]%elem_of_cons; [lia|].
    pose proof (extractOne_none _ _ _ Hrest x Hx). lia.
Qed.

(** C8. [search_patient] returns a record only when the record is stored,
    its full name is the best match and scores at least 80 against the
    queried name, and its date of birth is the queried string; and when the
    best match reaches 80 but no stored record of that name has the queried
    date of birth, the search finds nothing and [lookup_patient] raises
    [PatientNotFoundError], also when the name matches character for
    character. *)
Theorem search_patient_spec (df : list PatientDB.Row) (name : string)
    (dob : option string) :
  (forall r,
     PatientDB.search_patient scorer df name dob = Some r ->
     r ∈ df
     /\ 80 <= scorer name (PatientDB.full_name r)
     /\ Some (PatientDB.date_of_birth r) = dob
     /\ (forall r', r' ∈ df ->
           scorer name (PatientDB.full_name r')
           <= scorer name (PatientDB.full_name r)))
  /\ (forall m sc,
        PatientDB.extractOne scorer name (PatientDB.full_name <$> df) 80
        = Some (m, sc) ->
        (forall r, r ∈ df -> PatientDB.full_name r = m ->
                   Some (PatientDB.date_of_birth r) ≠ dob) ->
        PatientDB.search_patient scorer df name dob = None
        /\ PatientDB.lookup_patient scorer name dob df
           = Raise PatientNotFoundError).
Proof.
  split.
  - intros r. unfold PatientDB.search_patient.
    destruct df as [|r0 df']; [discriminate|]. set (df := r0 :: df').
    change (List.map PatientDB.full_name df) with (PatientDB.full_name <$> df).
    destruct (PatientDB.extractOne scorer name (PatientDB.full_name <$> df) 80)
      as [[m sc]|] eqn:Hbest; [|discriminate].
    apply extractOne_spec in Hbest as (_ & Hsc & Hcut & Hmax).
    destruct (List.filter _ df) as [|r1 rest] eqn:Hfilter; [discriminate|].
    intros [= ->].
    assert (In r (List.filter
                    (fun r => String.eqb (PatientDB.full_name r) m
                              && bool_decide
                                   (Some (PatientDB.date_of_birth r) = dob))
                    df)) as Hin by (rewrite Hfilter; left; reflexivity).
    apply filter_In in Hin as [Hin Htest].
    apply andb_true_iff in Htest as [Hname%String.eqb_eq Hdob%bool_decide_eq_true].
    rewrite Hname, <- Hsc. repeat split.
    + apply list_elem_of_In. exact Hin.
    + exact Hcut.
    + exact Hdob.
    + intros r' Hr'. apply Hmax. apply list_elem_of_fmap. eauto.
  - intros m sc Hbest Hdob.
    assert (PatientDB.search_patient scorer df name dob = None) as Hnone.
    { unfold PatientDB.search_patient.
      destruct df as [|r0 df']; [reflexivity|]. set (df := r0 :: df') in *.
      change (List.map PatientDB.full_name df)
        with (PatientDB.full_name <$> df).
      rewrite Hbest.
      destruct (List.filter _ df) as [|r1 rest] eqn:Hfilter; [reflexivity|].
      exfalso.
      assert (In r1 (List.filter
                      (fun r => String.eqb (PatientDB.full_name r) m
                                && bool_decide
                                     (Some (PatientDB.date_of_birth r) = dob))
                      df)) as Hin by (rewrite Hfilter; left; reflexivity).
      apply filter_In in Hin as [Hin Htest].
      apply andb_true_iff in Htest
        as [Hname%String.eqb_eq Hd%bool_decide_eq_true].
      apply (Hdob r1); [apply list_elem_of_In; exact Hin|exact Hname|exact Hd]. }
    split; [exact Hnone|]. unfold PatientDB.lookup_patient.
    rewrite Hnone. reflexivity.
Qed.

End LookupProperties.

Lemma search_patient_spec_witness :
  let scorer := fun a b : string => if String.eqb a b then 100 else 0 in
  let john := PatientDB.mkRow "P001" "John" "Smith" "1990-06-10" 3 in
  PatientDB.search_patient scorer [john] "John Smith" (Some "1990-06-10")
  = Some john
  /\ PatientDB.search_patient scorer [john] "John Smith" (Some "1991-06-10")
     = None.
Proof.
  intros scorer john. split; [reflexivity|].
  destruct (search_patient_spec scorer [john] "John Smith"
              (Some "1991-06-10")) as [_ H].
  apply (H "John Smith" 100); [reflexivity|].
  intros r ->%list_elem_of_singleton _. discriminate.
Defined.

(** ** The invariant of the conversation *)

Section Invariant.

Variable scorer : string -> string -> Z.
Variable strptime : string -> option Z.
Variable patient_db : list PatientDB.Row.
Variable calendar_tool : CalendarTools.

Lemma route_goto (s : AgentState) (st : Stage) :
  route_conversation s = Goto st ->
  st = default greeting (conversation_stage s).
Proof.
  unfold route_conversation. intros H.
  repeat case_match; simplify_eq; congruence.
Qed.

Ltac run_handler H :=
  unfold mbind, outcome_bind, subscript in H;
  repeat case_match; simplify_eq; simpl in *; simplify_eq;
  repeat split; auto; try discriminate.

Lemma greeting_node_post raw s s' :
  greeting_node raw s = Ok s' ->
  chosen_slot s' = chosen_slot s /\ appointment_id s' = appointment_id s
  /\ (conversation_stage s' = Some greeting
      \/ conversation_stage s' = Some information_confirmation
         /\ patient_info s' ≠ None).
Proof. unfold greeting_node. intros H. run_handler H. Qed.

Lemma information_confirmation_node_post s s' :
  information_confirmation_node s = Ok s' ->
  chosen_slot s' = chosen_slot s /\ appointment_id s' = appointment_id s
  /\ patient_info s' = patient_info s
  /\ (at_least greeting s' /\ ~ at_least find_slots s').
Proof.
  unfold information_confirmation_node, subscript, at_least. intros H.
  run_handler H; try (eexists; split; [reflexivity|simpl; lia]);
    intros (? & [= <-] & ?); simpl in *; lia.
Qed.

Lemma patient_lookup_node_post s s' :
  patient_lookup_node scorer patient_db s = Ok s' ->
  chosen_slot s' = chosen_slot s /\ appointment_id s' = appointment_id s
  /\ patient_info s' = patient_info s
  /\ conversation_stage s' = Some find_slots.
Proof.
  unfold patient_lookup_node, subscript. intros H. run_handler H.
Qed.

Lemma find_slots_node_post inp s s' :
  find_slots_node calendar_tool inp s = Ok s' ->
  chosen_slot s' = chosen_slot s /\ appointment_id s' = appointment_id s
  /\ patient_info s' = patient_info s
  /\ (conversation_stage s' = Some selection_parser
      \/ conversation_stage s' = Some completed).
Proof.
  unfold find_slots_node, subscript. intros H.
  destruct (find_available_slots _ _ _ _ _) as [slots| |]; simpl in H;
    try discriminate.
  run_handler H.
Qed.

Lemma selection_parser_node_post result s s' :
  selection_parser_node result s = Ok s' ->
  appointment_id s' = appointment_id s /\ patient_info s' = patient_info s
  /\ (conversation_stage s' = Some confirmation /\ chosen_slot s' ≠ None
      \/ conversation_stage s' = Some find_slots
         /\ chosen_slot s' = chosen_slot s).
Proof.
  unfold selection_parser_node, subscript. intros H.
  destruct (available_slots s) as [slots|]; simpl in H; [|discriminate].
  run_handler H.
Qed.

Lemma confirmation_node_post inp s s' :
  confirmation_node strptime inp s = Ok s' ->
  chosen_slot s' = chosen_slot s /\ patient_info s' = patient_info s
  /\ (conversation_stage s' = Some email_collection
      \/ conversation_stage s' = Some find_slots
         /\ (patient_info s ≠ None -> appointment_id s' = appointment_id s)).
Proof.
  unfold confirmation_node, confirmation_try. intros H.
  run_handler H; right; split; auto; congruence.
Qed.

Lemma email_collection_node_post raw s s' :
  email_collection_node raw s = Ok s' ->
  chosen_slot s' = chosen_slot s /\ appointment_id s' = appointment_id s
  /\ patient_info s' = patient_info s
  /\ (conversation_stage s' = Some completed
      \/ conversation_stage s' = Some email_collection).
Proof.
  unfold email_collection_node, subscript. intros H. run_handler H.
Qed.

Lemma stage_of_route (s : AgentState) (st : Stage) :
  st = default greeting (conversation_stage s) -> st ≠ greeting ->
  conversation_stage s = Some st.
Proof. destruct (conversation_stage s); simpl; congruence. Qed.

(** A field that is there only from stage [a] on is not there before. *)
Lemma before_none {A} (x : option A) (s : AgentState) (a st : Stage) :
  (x ≠ None -> at_least a s) ->
  st = default greeting (conversation_stage s) ->
  (stage_rank st < stage_rank a)%nat ->
  x = None.
Proof.
  intros Hx -> Hlt. destruct x; [|reflexivity].
  destruct Hx as (st' & Hst & Hle); [discriminate|].
  rewrite Hst in Hlt. simpl in Hlt. lia.
Qed.

Lemma at_least_intro (s : AgentState) (a st : Stage) :
  conversation_stage s = Some st -> (stage_rank a <= stage_rank st)%nat ->
  at_least a s.
Proof. intros. exists st. auto. Qed.

Lemma reachable_invariant (s : AgentState) :
  reachable scorer strptime patient_db calendar_tool s -> state_invariant s.
Proof.
  induction 1 as [msgs|s msgs _ IH|s st inp s' _ IH Hroute Hrun].
  - split; simpl; try done.
  - destruct IH as [I1 I2 I3]. split; simpl; assumption.
  - apply route_goto in Hroute. destruct IH as [I1 I2 I3].
    destruct st; simpl in Hrun; try discriminate Hrun; injection Hrun as Hrun.
    + apply greeting_node_post in Hrun as (Hc & Ha & Hst).
      rewrite (before_none _ _ _ _ I2 Hroute) in Ha by (simpl; lia).
      rewrite (before_none _ _ _ _ I3 Hroute) in Hc by (simpl; lia).
      split; [|congruence..].
      intros st Hs Hne. destruct Hst as [Hst|[Hst Hpi]]; congruence.
    + apply information_confirmation_node_post in Hrun
        as (Hc & Ha & Hpi & Hge & Hlt).
      rewrite (before_none _ _ _ _ I2 Hroute) in Ha by (simpl; lia).
      rewrite (before_none _ _ _ _ I3 Hroute) in Hc by (simpl; lia).
      split; [|congruence..].
      intros st _ _. rewrite Hpi.
      eapply I1; [apply stage_of_route; [exact Hroute|]|]; discriminate.
    + apply patient_lookup_node_post in Hrun as (Hc & Ha & Hpi & Hst).
      rewrite (before_none _ _ _ _ I2 Hroute) in Ha by (simpl; lia).
      rewrite (before_none _ _ _ _ I3 Hroute) in Hc by (simpl; lia).
      split; [|congruence..].
      intros st _ _. rewrite Hpi.
      eapply I1; [apply stage_of_route; [exact Hroute|]|]; discriminate.
    + apply find_slots_node_post in Hrun as (Hc & Ha & Hpi & Hst).
      rewrite (before_none _ _ _ _ I2 Hroute) in Ha by (simpl; lia).
      split; [|congruence|].
      * intros st _ _. rewrite Hpi.
        eapply I1; [apply stage_of_route; [exact Hroute|]|]; discriminate.
      * intros _. destruct Hst as [Hst|Hst];
          (eapply at_least_intro; [exact Hst|simpl; lia]).
    + apply selection_parser_node_post in Hrun as (Ha & Hpi & Hst).
      rewrite (before_none _ _ _ _ I2 Hroute) in Ha by (simpl; lia).
      split; [|congruence|].
      * intros st _ _. rewrite Hpi.
        eapply I1; [apply stage_of_route; [exact Hroute|]|]; discriminate.
      * intros _. destruct Hst as [[Hst _]|[Hst _]];
          (eapply at_least_intro; [exact Hst|simpl; lia]).
    + apply confirmation_node_post in Hrun as (Hc & Hpi & Hst).
      assert (patient_info s ≠ None) as Hsome
        by (eapply I1; [apply stage_of_route; [exact Hroute|]|]; discriminate).
      split.
      * intros st _ _. rewrite Hpi. exact Hsome.
      * intros Happ. destruct Hst as [Hst|[Hst Ha]].
        -- eapply at_least_intro; [exact Hst|simpl; lia].
        -- rewrite (Ha Hsome) in Happ.
           rewrite (before_none _ _ _ _ I2 Hroute) in Happ by (simpl; lia).
           done.
      * intros _. destruct Hst as [Hst|[Hst _]];
          (eapply at_least_intro; [exact Hst|simpl; lia]).
    + apply email_collection_node_post in Hrun as (Hc & Ha & Hpi & Hst).
      assert (at_least email_collection s') as Hge
        by (destruct Hst as [Hst|Hst];
            (eapply at_least_intro; [exact Hst|simpl; lia])).
      split.
      * intros st _ _. rewrite Hpi.
        eapply I1; [apply stage_of_route; [exact Hroute|]|]; discriminate.
      * intros _. exact Hge.
      * intros _. destruct Hge as (st' & ? & ?). exists st'. simpl in *.
        split; [assumption|lia].
Qed.

End Invariant.

(** ** The confirmation of the booking *)




(** ** The chosen slot and the stage *)

Lemma replay_reachable scorer strptime patient_db calendar_tool
    (events : list Event) :
  forall s s',
    reachable scorer strptime patient_db calendar_tool s ->
    replay scorer strptime patient_db calendar_tool events s = Some s' ->
    reachable scorer strptime patient_db calendar_tool s'.
Proof.
  induction events as [|[text|inp] events IH]; intros s s' Hs; simpl.
  - intros [= <-]. exact Hs.
  - destruct (route_conversation s) as [|[]]; try discriminate;
      apply IH; apply reach_log; exact Hs.
  - destruct (route_conversation s) as [|st] eqn:Hroute; [discriminate|].
    destruct (run_node _ _ _ _ st inp s) as [[s1| |]|] eqn:Hrun;
      try discriminate.
    apply IH. eapply reach_node; eassumption.
Qed.

(** The conversation of [Example] with a write that fails ends in a state
    where the slot is chosen and the stage is [find_slots]. *)
Lemma failed_state_reachable :
  reachable Example.scorer Example.strptime Example.patient_db
    Example.calendar_tool Example.failed_state.
Proof.
  apply (replay_reachable _ _ _ _ (Example.conversation false) Example.start);
    [apply reach_init|vm_compute; reflexivity].
Qed.

Lemma failed_state_fields :
  chosen_slot Example.failed_state
  = Some "Dr. Smith on Monday, September 08 at 10:00 AM"
  /\ conversation_stage Example.failed_state = Some find_slots
  /\ appointment_id Example.failed_state = None
  /\ last (messages Example.failed_state)
     = Some (mkMessage "assistant" booking_error_text).
Proof. vm_compute. repeat split. Qed.

(** The run goes on after the failure and ends, waiting for the user, at
    stage [selection_parser] with the slot still chosen. *)
Lemma waiting_state_fields :
  reachable Example.scorer Example.strptime Example.patient_db
    Example.calendar_tool Example.waiting_state
  /\ route_conversation Example.waiting_state = END
  /\ chosen_slot Example.waiting_state
     = Some "Dr. Smith on Monday, September 08 at 10:00 AM"
  /\ conversation_stage Example.waiting_state = Some selection_parser.
Proof.
  split; [|vm_compute; repeat split].
  apply (replay_reachable _ _ _ _ [Handle (Example.inputs false)]
           Example.failed_state);
    [exact failed_state_reachable|vm_compute; reflexivity].
Qed.

(** C1, refuted as stated: a state is reachable in which [chosen_slot] is
    set and the stage is [find_slots], which comes before [confirmation];
    the last handler that ran is [confirmation_node], on a booking that
    failed. *)
Lemma chosen_slot_before_confirmation :
  ~ (forall scorer strptime patient_db calendar_tool s,
       reachable scorer strptime patient_db calendar_tool s ->
       chosen_slot_implies_at_least confirmation s).
Proof.
  intros H. destruct failed_state_fields as (Hslot & Hstage & _).
  destruct (H _ _ _ _ _ failed_state_reachable) as (st & Hst & Hle).
  - rewrite Hslot. discriminate.
  - rewrite Hstage in Hst. injection Hst as <-. simpl in Hle. lia.
Qed.

(** C1, amended.  In every reachable state, if [chosen_slot] is set then
    the stage is at or beyond [find_slots]; and whenever
    [selection_parser_node] changes [chosen_slot], the stage it leaves is
    [confirmation]. *)
Theorem chosen_slot_stage scorer strptime patient_db calendar_tool
    (s : AgentState) :
  reachable scorer strptime patient_db calendar_tool s ->
  chosen_slot_implies_at_least find_slots s
  /\ (forall result s',
        selection_parser_node result s = Ok s' ->
        chosen_slot s' ≠ chosen_slot s ->
        conversation_stage s' = Some confirmation).
Proof.
  intros Hreach. split.
  - apply reachable_invariant in Hreach as [_ _ I3]. exact I3.
  - intros result s' Hrun Hne.
    apply selection_parser_node_post in Hrun as (_ & _ & [[Hst _]|[_ Heq]]);
      [exact Hst|done].
Qed.

Lemma chosen_slot_stage_witness :
  chosen_slot Example.failed_state
  = Some "Dr. Smith on Monday, September 08 at 10:00 AM"
  /\ at_least find_slots Example.failed_state.
Proof.
  split; [vm_compute; reflexivity|].
  apply (chosen_slot_stage _ _ _ _ Example.failed_state
           failed_state_reachable).
  vm_compute. discriminate.
Defined.

(** ** The models of the library calls on small inputs *)

Example re_search_slot :
  ExportTools.re_search "Dr. Evelyn Reed on Monday, September 08 at 10:30 AM"
  = Some ("Dr. Evelyn Reed", "Monday, September 08", "10:30 AM").
Proof. vm_compute. reflexivity. Qed.

Example re_search_lazy :
  ExportTools.re_search "see Dr. A on B on C at D at E"
  = Some ("Dr. A", "B on C", "D at E").
Proof. vm_compute. reflexivity. Qed.

Example re_search_no_doctor :
  ExportTools.re_search "Doctor Who on Monday, September 08 at 10:30 AM"
  = None.
Proof. vm_compute. reflexivity. Qed.

Example format_slot_afternoon :
  format_slot "Dr. Smith" (DT.datetime 2025 9 8 14 5 0)
  = "Dr. Smith on Monday, September 08 at 02:05 PM".
Proof. vm_compute. reflexivity. Qed.

Example strftime_compact_leap_day :
  DT.strftime_compact (DT.datetime 2024 2 29 0 30 59) = "20240229003059".
Proof. vm_compute. reflexivity. Qed.

Example last_chars_short_and_long :
  Py.last_chars 4 "NEW_PATIENT" = "IENT" /\ Py.last_chars 4 "P7" = "P7".
Proof. vm_compute. split; reflexivity. Qed.

Example strip_lower :
  Py.strip (Py.lower "  Looks GOOD to me ") = "looks good to me".
Proof. vm_compute. reflexivity. Qed.

(** * Further properties *)

(** ** Completeness of the patient record *)

(** X1. A patient record is complete exactly when there is no missing-info
    message for it: [greeting_node] asks for more whenever something is
    absent, and only then. *)
Theorem complete_iff_no_missing_message (pi : PatientInfo) :
  is_patient_info_complete pi = true <-> get_missing_info_message pi = None.
Proof.
  unfold is_patient_info_complete, get_missing_info_message, missing_fields,
    append_if_missing.
  destruct (Py.truthy (full_name pi)), (Py.truthy (date_of_birth pi)),
    (Py.truthy (preferred_doctor pi)), (Py.truthy (preferred_location pi));
    simpl; split; intros H; try reflexivity; discriminate H.
Qed.

Lemma or_truthy_r (a b : option string) :
  Py.truthy b = true -> Py.truthy (Py.or_ a b) = true.
Proof. unfold Py.or_. destruct (Py.truthy a) eqn:Ha; auto. Qed.

Lemma merge_keeps_complete (new old : PatientInfo) :
  is_patient_info_complete old = true ->
  is_patient_info_complete (merge_patient_info new old) = true.
Proof.
  unfold is_patient_info_complete, merge_patient_info. simpl.
  rewrite !andb_true_iff. intros [[[? ?] ?] ?].
  repeat split; apply or_truthy_r; assumption.
Qed.

(** X2. Once the four fields are known, [greeting_node] never asks again:
    whatever the extraction oracle returns, also nothing at all, the merged
    record is complete, no message is appended and the stage becomes
    [information_confirmation]. *)
Theorem greeting_node_complete_stays (raw : gmap string (option string))
    (s : AgentState) (old : PatientInfo) :
  patient_info s = Some old ->
  is_patient_info_complete old = true ->
  let merged :=
    merge_patient_info (normalize_and_validate_patient_info raw) old in
  is_patient_info_complete merged = true
  /\ greeting_node raw s
     = Ok (set_stage information_confirmation (set_patient_info merged s)).
Proof.
  intros Hold Hc merged.
  assert (is_patient_info_complete merged = true) as Hm
    by (apply merge_keeps_complete; exact Hc).
  split; [exact Hm|]. unfold greeting_node.
  rewrite bool_decide_eq_false_2 by (rewrite Hold; intros [_ ?]; discriminate).
  rewrite Hold. fold merged. rewrite Hm. reflexivity.
Qed.

Lemma greeting_node_complete_stays_witness :
  let pi :=
    mkPatientInfo (Some "Jane Doe") (Some "1985-03-15") (Some "Smith")
      (Some "Downtown Clinic") in
  let s :=
    mkAgentState [mkMessage "user" "hi"; mkMessage "assistant" "hello";
                  mkMessage "user" "nothing new"]
      (Some pi) None None None None None None (Some greeting) in
  greeting_node ∅ s = Ok (set_stage information_confirmation s).
Proof.
  intros pi s.
  destruct (greeting_node_complete_stays ∅ s pi eq_refl eq_refl) as [_ ->].
  reflexivity.
Defined.

(** ** The message log and the length of a run *)

Section RunProperties.

Variable scorer : string -> string -> Z.
Variable strptime : string -> option Z.
Variable patient_db : list PatientDB.Row.
Variable calendar_tool : CalendarTools.

Ltac effect_cases H :=
  unfold mbind, outcome_bind, subscript in H;
  repeat case_match; simplify_eq; simpl in *; simplify_eq;
  first
    [ left; split; [reflexivity|split; [reflexivity|discriminate]]
    | right; do 2 eexists;
      split; [reflexivity|split; [reflexivity|set_solver]] ].

Lemma greeting_node_effect raw s s' :
  greeting_node raw s = Ok s' ->
  handler_effect (Some information_confirmation) [greeting] s s'.
Proof. unfold greeting_node, handler_effect. intros H. effect_cases H. Qed.

Lemma information_confirmation_node_effect s s' :
  information_confirmation_node s = Ok s' ->
  handler_effect (Some patient_lookup) [greeting; information_confirmation]
    s s'.
Proof.
  unfold information_confirmation_node, handler_effect. intros H.
  effect_cases H.
Qed.

Lemma patient_lookup_node_effect s s' :
  patient_lookup_node scorer patient_db s = Ok s' ->
  handler_effect None [find_slots] s s'.
Proof.
  unfold patient_lookup_node, handler_effect. intros H. effect_cases H.
Qed.

Lemma find_slots_node_effect inp s s' :
  find_slots_node calendar_tool inp s = Ok s' ->
  handler_effect None [selection_parser; completed] s s'.
Proof.
  unfold find_slots_node, handler_effect. intros H.
  destruct (find_available_slots _ _ _ _ _) as [slots| |]; simpl in H;
    try discriminate.
  effect_cases H.
Qed.

Lemma selection_parser_node_effect result s s' :
  selection_parser_node result s = Ok s' ->
  handler_effect (Some confirmation) [find_slots] s s'.
Proof.
  unfold selection_parser_node, handler_effect. intros H.
  destruct (available_slots s) as [slots|]; simpl in H; [|discriminate].
  effect_cases H.
Qed.

Lemma confirmation_node_effect inp s s' :
  confirmation_node strptime inp s = Ok s' ->
  handler_effect None [email_collection; find_slots] s s'.
Proof.
  unfold confirmation_node, confirmation_try, handler_effect. intros H.
  effect_cases H.
Qed.

Lemma email_collection_node_effect raw s s' :
  email_collection_node raw s = Ok s' ->
  handler_effect None [completed; email_collection] s s'.
Proof.
  unfold email_collection_node, handler_effect. intros H. effect_cases H.
Qed.

(** X3. The message log is append-only: a handler that returns leaves the
    log as it was or appends exactly one message, whose role is
    [assistant]; it never drops or rewrites a message. *)
Theorem handlers_append_only (st : Stage) (inp : Inputs) (s s' : AgentState) :
  run_node scorer strptime patient_db calendar_tool st inp s = Some (Ok s') ->
  messages s' = messages s
  \/ exists c, messages s' = (messages s ++ [mkMessage "assistant" c])%list.
Proof.
  intros H. destruct st; simpl in H; try discriminate H; injection H as H.
  - apply greeting_node_effect in H as [[? _]|(c & _ & ? & _)]; eauto.
  - apply information_confirmation_node_effect in H
      as [[? _]|(c & _ & ? & _)]; eauto.
  - apply patient_lookup_node_effect in H as [[? _]|(c & _ & ? & _)]; eauto.
  - apply find_slots_node_effect in H as [[? _]|(c & _ & ? & _)]; eauto.
  - apply selection_parser_node_effect in H as [[? _]|(c & _ & ? & _)]; eauto.
  - apply confirmation_node_effect in H as [[? _]|(c & _ & ? & _)]; eauto.
  - apply email_collection_node_effect in H as [[? _]|(c & _ & ? & _)]; eauto.
Qed.

Lemma route_quiet (s : AgentState) (q : Stage) :
  conversation_stage s = Some q ->
  (depth s <= stage_depth q)%nat.
Proof.
  intros Hq. unfold depth, route_conversation. rewrite Hq. simpl.
  repeat case_match; simplify_eq; simpl; lia.
Qed.

Lemma route_spoken (s : AgentState) (l : list Message) (c : string)
    (st : Stage) :
  messages s = (l ++ [mkMessage "assistant" c])%list ->
  conversation_stage s = Some st ->
  (depth s <= if decide (st = find_slots) then 1 else 0)%nat.
Proof.
  intros Hm Hst. unfold depth, route_conversation. rewrite Hst, Hm, last_snoc.
  simpl. destruct (decide (st = find_slots)) as [->|]; simpl; lia.
Qed.

Ltac absurd_stage Hin :=
  exfalso; clear -Hin;
  repeat (apply elem_of_cons in Hin as [Hin|Hin]; [discriminate Hin|]);
  inversion Hin.

Lemma depth_decreases (st : Stage) (inp : Inputs) (s s' : AgentState) :
  run_node scorer strptime patient_db calendar_tool st inp s = Some (Ok s') ->
  (depth s' < stage_depth st)%nat.
Proof.
  intros H. destruct st; simpl in H; try discriminate H; injection H as H.
  - apply greeting_node_effect in H as [(_ & Hq & _)|(c & st & Hm & Hst & Hin)].
    + apply route_quiet in Hq. simpl in *. lia.
    + pose proof (route_spoken _ _ _ _ Hm Hst) as Hd.
      destruct (decide (st = find_slots)) as [->|]; [absurd_stage Hin|simpl; lia].
  - apply information_confirmation_node_effect in H
      as [(_ & Hq & _)|(c & st & Hm & Hst & Hin)].
    + apply route_quiet in Hq. simpl in *. lia.
    + pose proof (route_spoken _ _ _ _ Hm Hst) as Hd.
      destruct (decide (st = find_slots)) as [->|]; [absurd_stage Hin|simpl; lia].
  - apply patient_lookup_node_effect in H
      as [(_ & _ & ?)|(c & st & Hm & Hst & Hin)]; [done|].
    pose proof (route_spoken _ _ _ _ Hm Hst) as Hd.
    destruct (decide (st = find_slots)); simpl; lia.
  - apply find_slots_node_effect in H
      as [(_ & _ & ?)|(c & st & Hm & Hst & Hin)]; [done|].
    pose proof (route_spoken _ _ _ _ Hm Hst) as Hd.
    destruct (decide (st = find_slots)) as [->|]; [absurd_stage Hin|simpl; lia].
  - apply selection_parser_node_effect in H
      as [(_ & Hq & _)|(c & st & Hm & Hst & Hin)].
    + apply route_quiet in Hq. simpl in *. lia.
    + pose proof (route_spoken _ _ _ _ Hm Hst) as Hd.
      destruct (decide (st = find_slots)); simpl; lia.
  - apply confirmation_node_effect in H
      as [(_ & _ & ?)|(c & st & Hm & Hst & Hin)]; [done|].
    pose proof (route_spoken _ _ _ _ Hm Hst) as Hd.
    destruct (decide (st = find_slots)); simpl; lia.
  - apply email_collection_node_effect in H
      as [(_ & _ & ?)|(c & st & Hm & Hst & Hin)]; [done|].
    pose proof (route_spoken _ _ _ _ Hm Hst) as Hd.
    destruct (decide (st = find_slots)) as [->|]; [absurd_stage Hin|simpl; lia].
Qed.

Lemma invoke_enough (inps : list Inputs) :
  forall s, (depth s <= length inps)%nat ->
  is_Some (invoke scorer strptime patient_db calendar_tool inps s).
Proof.
  induction inps as [|inp inps IH]; intros s Hd.
  - unfold depth in Hd. simpl.
    destruct (route_conversation s) as [|[]]; simpl in Hd; try lia; eauto.
  - simpl. unfold depth in Hd.
    destruct (route_conversation s) as [|st] eqn:Hroute; [eauto|].
    destruct (run_node _ _ _ _ st inp s) as [[s'|e|]|] eqn:Hrun.
    + assert (is_Some
                (invoke scorer strptime patient_db calendar_tool inps s'))
        as Hs'.
      { apply IH. apply depth_decreases in Hrun. simpl in Hd. lia. }
      destruct st; eauto.
    + destruct st; eauto.
    + destruct st; eauto.
    + destruct st; eauto.
Qed.

Lemma invoke_ends (inps : list Inputs) :
  forall s s',
    invoke scorer strptime patient_db calendar_tool inps s = Some (Ok s') ->
    route_conversation s' = END \/ route_conversation s' = Goto completed.
Proof.
  induction inps as [|inp inps IH]; intros s s'; simpl.
  - destruct (route_conversation s) as [|[]] eqn:Hr; intros [= <-]; auto.
  - destruct (route_conversation s) as [|st] eqn:Hr.
    + intros [= <-]; auto.
    + destruct (run_node _ _ _ _ st inp s) as [[s1|e|]|] eqn:Hrun;
        destruct st; try discriminate; try (intros [= <-]; auto); apply IH.
Qed.

(** X4. A run of the graph makes at most four handler calls: from any
    state, and whatever the oracles and the files give, four inputs are
    enough for [invoke] to come to its end, and when it ends with a state the
    router has ended the run there, the last message being the assistant's
    or the stage [completed]. *)
Theorem run_makes_at_most_four_calls (inps : list Inputs) (s : AgentState) :
  (4 <= length inps)%nat ->
  is_Some (invoke scorer strptime patient_db calendar_tool inps s)
  /\ forall s',
       invoke scorer strptime patient_db calendar_tool inps s = Some (Ok s') ->
       route_conversation s' = END \/ route_conversation s' = Goto completed.
Proof.
  intros Hlen. split; [|apply invoke_ends].
  apply invoke_enough. unfold depth.
  destruct (route_conversation s) as [|[]]; simpl; lia.
Qed.

End RunProperties.

(** ** No handler fails on a reachable state *)

Section Ready.

Variable scorer : string -> string -> Z.
Variable strptime : string -> option Z.
Variable patient_db : list PatientDB.Row.
Variable calendar_tool : CalendarTools.









End Ready.


(** A turn in which the user gives the four fields and a word of the
    affirmative list at once takes the four calls: greeting, confirmation of
    the information, lookup and slot listing. *)
Lemma run_makes_at_most_four_calls_witness :
  let s :=
    mkAgentState
      [mkMessage "user" "Hi"; mkMessage "assistant" greeting_text;
       mkMessage "user" "Jane Doe, 1985-03-15, Dr. Smith, Downtown, right?"]
      None None None None None None None (Some greeting) in
  let i := Example.inputs true in
  invoke Example.scorer Example.strptime Example.patient_db
    Example.calendar_tool [i; i; i] s = None
  /\ is_Some (invoke Example.scorer Example.strptime Example.patient_db
                Example.calendar_tool [i; i; i; i] s).
Proof.
  intros s i. split; [vm_compute; reflexivity|].
  apply (run_makes_at_most_four_calls Example.scorer Example.strptime
           Example.patient_db Example.calendar_tool [i; i; i; i] s).
  simpl. lia.
Defined.

(** After the failed booking of [Example], [find_slots_node] appends the
    list of slots to the log. *)
Lemma handlers_append_only_witness :
  messages Example.waiting_state = messages Example.failed_state
  \/ exists c,
       messages Example.waiting_state
       = (messages Example.failed_state ++ [mkMessage "assistant" c])%list.
Proof.
  apply (handlers_append_only Example.scorer Example.strptime
           Example.patient_db Example.calendar_tool find_slots
           (Example.inputs false)).
  vm_compute. reflexivity.
Defined.

(** ** The booked start-times *)

Lemma load_rows_elem (rows : list (option Z)) :
  forall (acc : gset Z) (t : Z),
    t ∈ load_rows rows acc
    <-> t ∈ acc
        \/ exists i, rows !! i = Some (Some t)
                     /\ forall j, (j < i)%nat -> rows !! j ≠ Some None.
Proof.
  induction rows as [|[b|] rows IH]; intros acc t; cbn [load_rows].
  - split; [auto|]. intros [H|(i & H & _)]; [exact H|]. destruct i; discriminate.
  - rewrite IH, elem_of_union, elem_of_singleton. split.
    + intros [[H| ->]|(i & Hi & Hj)]; [auto| |].
      * right. exists 0%nat. split; [reflexivity|]. lia.
      * right. exists (S i). split; [exact Hi|].
        intros [|j] Hlt; [discriminate|]. apply Hj. lia.
    + intros [H|(i & Hi & Hj)]; [auto|].
      destruct i as [|i].
      * injection Hi as ->. auto.
      * right. exists i. split; [exact Hi|].
        intros j Hlt. apply (Hj (S j)). lia.
  - split; [auto|]. intros [H|(i & Hi & Hj)]; [exact H|].
    destruct i as [|i]; [discriminate|].
    exfalso. apply (Hj 0%nat); [lia|reflexivity].
Qed.

Lemma load_rows_cut (l1 l2 : list (option Z)) :
  forall acc, load_rows (l1 ++ None :: l2) acc = load_rows l1 acc.
Proof.
  induction l1 as [|[b|] l1 IH]; intros acc; cbn [load_rows app];
    [reflexivity|apply IH|reflexivity].
Qed.

(** X6. [_load_booked_slots] reads the appointments file up to the first
    row whose date and time do not parse: a start-time is booked exactly when
    it is the time of a row with no failing row before it, and a missing
    file gives the empty set.  The rows after a failing row are not read, so
    the slot finder lists what it would list if the file ended there, the
    start-times booked by those rows included. *)
Theorem load_booked_slots_stops_at_bad_row (self : CalendarTools)
    (rows : list (option Z)) :
  (forall t,
     t ∈ booked_slots (_load_booked_slots self (Some rows))
     <-> exists i, rows !! i = Some (Some t)
                   /\ forall j, (j < i)%nat -> rows !! j ≠ Some None)
  /\ booked_slots (_load_booked_slots self None) = ∅
  /\ (forall l1 l2 fuel is_new start_date end_date,
        rows = (l1 ++ None :: l2)%list ->
        find_available_slots fuel (_load_booked_slots self (Some rows))
          is_new start_date end_date
        = find_available_slots fuel (_load_booked_slots self (Some l1))
            is_new start_date end_date).
Proof.
  split; [|split].
  - intros t. cbn [_load_booked_slots booked_slots].
    rewrite load_rows_elem. split; [|auto].
    intros [H|H]; [|exact H]. exfalso. revert H. apply not_elem_of_empty.
  - reflexivity.
  - intros l1 l2 fuel is_new start_date end_date ->.
    unfold find_available_slots, _load_booked_slots. simpl.
    rewrite load_rows_cut. reflexivity.
Qed.

(** A booking at 10:00 that follows a row that does not parse is not seen:
    the 10:00 slot is listed again. *)
Lemma load_booked_slots_stops_at_bad_row_witness :
  let block :=
    mkScheduleRow "Dr. Smith" (DT.datetime 2025 9 8 9 0 0)
      (DT.datetime 2025 9 8 11 0 0) in
  let self := mkCalendarTools APPOINTMENT_DURATIONS [block] ∅ in
  let listed rows :=
    find_available_slots 3 (_load_booked_slots self (Some rows)) true
      (DT.datetime 2025 9 8 0 0 0) (DT.datetime 2025 9 22 0 0 0) in
  listed [Some (DT.datetime 2025 9 8 10 0 0)]
  = Ok ["Dr. Smith on Monday, September 08 at 09:00 AM"]
  /\ listed [None; Some (DT.datetime 2025 9 8 10 0 0)]
     = Ok ["Dr. Smith on Monday, September 08 at 09:00 AM";
           "Dr. Smith on Monday, September 08 at 10:00 AM"].
Proof.
  intros block self listed. split; [vm_compute; reflexivity|].
  destruct (load_booked_slots_stops_at_bad_row self
              [None; Some (DT.datetime 2025 9 8 10 0 0)]) as (_ & _ & H).
  unfold listed.
  rewrite (H [] [Some (DT.datetime 2025 9 8 10 0 0)]) by reflexivity.
  vm_compute. reflexivity.
Defined.

(** ** A duration that is not positive *)




(** ** The lookup of the patient *)

Section LookupMore.

Variable scorer : string -> string -> Z.

Lemma search_patient_elem (db : list PatientDB.Row) (name : string)
    (dob : option string) (r : PatientDB.Row) :
  PatientDB.search_patient scorer db name dob = Some r -> r ∈ db.
Proof.
  unfold PatientDB.search_patient. destruct db as [|r0 db']; [discriminate|].
  destruct (PatientDB.extractOne _ _ _ _) as [[m sc]|]; [|discriminate].
  destruct (List.filter _ _) as [|r1 rest] eqn:Hf; [discriminate|].
  intros [= ->]. apply list_elem_of_In.
  eapply proj1, filter_In. rewrite Hf. left. reflexivity.
Qed.

Lemma first_with_id (db : list PatientDB.Row) (r : PatientDB.Row) :
  NoDup (PatientDB.patient_id <$> db) -> r ∈ db ->
  List.filter
    (fun r' => String.eqb (PatientDB.patient_id r') (PatientDB.patient_id r))
    db = [r].
Proof.
  induction db as [|a db IH]; [intros _ H; inversion H|].
  rewrite fmap_cons, NoDup_cons. intros [Hnotin Hnd] Hin. cbn [List.filter].
  apply elem_of_cons in Hin as [->|Hin].
  - rewrite String.eqb_refl. f_equal.
    clear IH Hnd. induction db as [|b db IH]; [reflexivity|]. cbn [List.filter].
    rewrite fmap_cons, not_elem_of_cons in Hnotin. destruct Hnotin as [Hne Hn].
    rewrite (proj2 (String.eqb_neq _ _)) by congruence. apply IH. exact Hn.
  - rewrite (proj2 (String.eqb_neq _ _)); [apply IH; assumption|].
    intros Heq. apply Hnotin. rewrite Heq. apply list_elem_of_fmap. eauto.
Qed.

(** X8. [lookup_patient] returns the identifier of the record the search
    found and raises nothing but [PatientNotFoundError], and that exactly
    when the search finds nothing.  When the patient identifiers of the
    store are all different, the patient is new exactly when the found
    record's [visit_history] is not positive; in general the first record
    with that identifier decides. *)
Theorem lookup_patient_classifies (db : list PatientDB.Row) (name : string)
    (dob : option string) :
  (forall pid is_new,
     PatientDB.lookup_patient scorer name dob db = Ok (pid, is_new) ->
     exists r,
       PatientDB.search_patient scorer db name dob = Some r
       /\ r ∈ db /\ pid = PatientDB.patient_id r
       /\ is_new = negb (PatientDB.is_returning_patient db pid)
       /\ (NoDup (PatientDB.patient_id <$> db) ->
           is_new = negb (0 <? PatientDB.visit_history r)))
  /\ (forall e,
        PatientDB.lookup_patient scorer name dob db = Raise e ->
        e = PatientNotFoundError
        /\ PatientDB.search_patient scorer db name dob = None)
  /\ PatientDB.lookup_patient scorer name dob db ≠ OutOfFuel.
Proof.
  unfold PatientDB.lookup_patient.
  destruct (PatientDB.search_patient scorer db name dob) as [r|] eqn:Hs.
  - split; [|split; discriminate].
    intros pid is_new [= <- <-]. exists r.
    pose proof (search_patient_elem _ _ _ _ Hs) as Hin.
    repeat split; [exact Hin|].
    intros Hnd. unfold PatientDB.is_returning_patient.
    destruct db as [|r0 db']; [inversion Hin|].
    rewrite (first_with_id _ r Hnd Hin). reflexivity.
  - split; [discriminate|]. split; [|discriminate].
    intros e [= <-]. auto.
Qed.

End LookupMore.

Lemma lookup_patient_classifies_witness :
  PatientDB.lookup_patient Example.scorer "Jane Doe" (Some "1985-03-15")
    Example.patient_db
  = Ok ("P002", true).
Proof.
  destruct (PatientDB.lookup_patient Example.scorer "Jane Doe"
              (Some "1985-03-15") Example.patient_db)
    as [[pid is_new]|e|] eqn:H; [|vm_compute in H; discriminate..].
  destruct (lookup_patient_classifies Example.scorer Example.patient_db
              "Jane Doe" (Some "1985-03-15")) as (Hok & _).
  destruct (Hok pid is_new H) as (r & Hr & _ & -> & _ & Hnew).
  vm_compute in Hr. injection Hr as <-.
  rewrite Hnew; [reflexivity|].
  apply (bool_decide_unpack _). vm_compute. exact I.
Defined.

(** ** From the slot finder to the booking writer *)

Lemma append_assoc (a b c : string) : (a +:+ b) +:+ c = a +:+ (b +:+ c).
Proof.
  induction a as [|ch a IH]; [reflexivity|].
  rewrite !append_cons, IH. reflexivity.
Qed.

Lemma append_nil_r (a : string) : a +:+ "" = a.
Proof. induction a as [|ch a IH]; [reflexivity|]. rewrite append_cons, IH. reflexivity. Qed.

Lemma digit_in (n : Z) : DT.digit n ∈ ten_digits.
Proof.
  unfold DT.digit. pose proof (Z.mod_pos_bound n 10 ltac:(lia)) as Hb.
  assert (exists k, (k < 10)%nat /\ Z.to_nat (n mod 10) = k) as (k & Hk & ->)
    by (eexists; split; [|reflexivity]; lia).
  do 10 (destruct k as [|k];
         [apply list_elem_of_In; vm_compute; tauto|]).
  lia.
Qed.

Lemma digits2_in (n : Z) : DT.digits 2 n ∈ two_digits.
Proof.
  unfold two_digits. cbn [DT.digits].
  change ("" +:+ String (DT.digit (n / 10)) "" +:+ String (DT.digit n) "")
    with (String (DT.digit (n / 10)) (String (DT.digit n) "")).
  apply list_elem_of_bind. exists (DT.digit (n / 10)).
  split; [|apply digit_in].
  apply list_elem_of_bind. exists (DT.digit n). split; [|apply digit_in].
  apply list_elem_of_singleton. reflexivity.
Qed.

Lemma nth_default_in (l : list string) (i : nat) : nth i l "" ∈ "" :: l.
Proof.
  destruct (nth_in_or_default i l "") as [H| ->]; [|left].
  right. apply list_elem_of_In. exact H.
Qed.

Lemma strftime_date_in (t : Z) : DT.strftime_date t ∈ all_dates.
Proof.
  unfold DT.strftime_date, all_dates.
  apply list_elem_of_bind. eexists. split; [|apply nth_default_in].
  apply list_elem_of_bind. eexists. split; [|apply nth_default_in].
  apply list_elem_of_bind. eexists. split; [|apply digits2_in].
  apply list_elem_of_singleton. reflexivity.
Qed.

Lemma strftime_time12_in (t : Z) : DT.strftime_time12 t ∈ all_times.
Proof.
  unfold DT.strftime_time12, all_times. cbv zeta.
  apply list_elem_of_bind. eexists. split; [|apply digits2_in].
  apply list_elem_of_bind. eexists. split; [|apply digits2_in].
  apply list_elem_of_bind. exists (if DT.hour t <? 12 then "AM" else "PM").
  split; [apply list_elem_of_singleton; reflexivity|].
  destruct (DT.hour t <? 12); apply list_elem_of_In; simpl; tauto.
Qed.

Lemma all_dates_ok : forallb date_text_ok all_dates = true.
Proof. vm_compute. reflexivity. Qed.

Lemma all_times_ok : forallb time_text_ok all_times = true.
Proof. vm_compute. reflexivity. Qed.

Lemma strftime_date_ok (t : Z) : date_text_ok (DT.strftime_date t) = true.
Proof.
  pose proof all_dates_ok as H. rewrite forallb_forall in H.
  apply H, list_elem_of_In, strftime_date_in.
Qed.

Lemma strftime_time12_ok (t : Z) : time_text_ok (DT.strftime_time12 t) = true.
Proof.
  pose proof all_times_ok as H. rewrite forallb_forall in H.
  apply H, list_elem_of_In, strftime_time12_in.
Qed.

Lemma substring_all (s : string) : String.substring 0 (String.length s) s = s.
Proof. induction s as [|c s IH]; [reflexivity|]. simpl. rewrite IH. reflexivity. Qed.

Lemma drop4_cons (a b c d : ascii) (rest : string) :
  ExportTools.drop4 (String a (String b (String c (String d rest)))) = rest.
Proof. unfold ExportTools.drop4. simpl. rewrite Nat.sub_0_r. apply substring_all. Qed.

Lemma take_dots_cons (c : ascii) (s : string) :
  ExportTools.take_dots (String c s) = String c s ->
  ExportTools.dot c = true /\ ExportTools.take_dots s = s.
Proof.
  cbn [ExportTools.take_dots]. destruct (ExportTools.dot c); [|discriminate].
  intros [= H]. auto.
Qed.

Lemma contains_cons_false (w : string) (c : ascii) (h : string) :
  Py.contains w (String c h) = false ->
  String.prefix w (String c h) = false /\ Py.contains w h = false.
Proof. cbn [Py.contains]. apply orb_false_elim. Qed.

Lemma prefix_refl_app (w r : string) : String.prefix w (w +:+ r) = true.
Proof. apply prefix_spec. eauto. Qed.

(** A separator of four characters that begins inside [d] begins inside
    [d] followed by the first three characters of the separator. *)
Lemma early_separator (a b c e : ascii) (d rest : string) :
  d ≠ "" ->
  String.prefix (String a (String b (String c (String e ""))))
    (d +:+ String a (String b (String c (String e rest)))) = true ->
  String.prefix (String a (String b (String c (String e ""))))
    (d +:+ String a (String b (String c ""))) = true.
Proof.
  intros Hd H.
  destruct d as [|x1 [|x2 [|x3 [|x4 d]]]]; [done|..];
    rewrite ?append_cons in *; change ("" +:+ ?s) with s in *;
    repeat match goal with
           | H : String.prefix (String _ _) (String _ _) = true |- _ =>
               apply prefix_cons_inv in H as [<- H]
           end;
    cbn [String.prefix];
    repeat (destruct (ascii_dec _ _); [|done]);
    first [reflexivity|apply prefix_spec; eexists; reflexivity].
Qed.

Lemma match_date_exact (d time : string) :
  forall g2,
    ExportTools.take_dots d = d ->
    ExportTools.take_dots time = time -> time ≠ "" ->
    Py.contains " at " (d +:+ " at") = false ->
    ExportTools.match_date g2 (d +:+ " at " +:+ time) = Some (g2 +:+ d, time).
Proof.
  induction d as [|c d IH]; intros g2 Hd Ht Hne Hc.
  - change ("" +:+ " at " +:+ time) with (" at " +:+ time).
    rewrite append_nil_r.
    assert (ExportTools.match_at (" at " +:+ time) = Some time) as Hm.
    { unfold ExportTools.match_at. rewrite prefix_refl_app.
      change (" at " +:+ time)
        with (String " " (String "a" (String "t" (String " " time)))).
      rewrite drop4_cons, Ht. destruct time; [done|reflexivity]. }
    destruct time; [done|]. cbn [ExportTools.match_date].
    unfold ExportTools.match_date. 
    change (" at " +:+ String a time)
      with (String " " (String "a" (String "t" (String " " (String a time)))))
      in *.
    cbn [ExportTools.match_date]. rewrite Hm. reflexivity.
  - apply take_dots_cons in Hd as [Hdot Hd].
    rewrite append_cons in Hc. apply contains_cons_false in Hc as [Hp Hc].
    rewrite append_cons. cbn [ExportTools.match_date].
    assert (ExportTools.match_at (String c (d +:+ " at " +:+ time)) = None)
      as ->.
    { unfold ExportTools.match_at.
      destruct (String.prefix " at " (String c (d +:+ " at " +:+ time)))
        eqn:Hpre; [|reflexivity].
      rewrite <- append_cons in Hpre.
      apply (early_separator " " "a" "t" " " (String c d) time) in Hpre;
        [|discriminate].
      rewrite append_cons in Hpre. congruence. }
    rewrite Hdot, IH by assumption.
    rewrite append_assoc. reflexivity.
Qed.

Lemma match_on_exact (date time : string) :
  date_text_ok date = true ->
  ExportTools.take_dots time = time -> time ≠ "" ->
  ExportTools.match_on (" on " +:+ date +:+ " at " +:+ time)
  = Some (date, time).
Proof.
  unfold date_text_ok. rewrite !andb_true_iff, !negb_true_iff.
  intros [[[Hd%String.eqb_eq Hne%String.eqb_neq] _] Hc] Ht Htne.
  unfold ExportTools.match_on. rewrite prefix_refl_app.
  change (" on " +:+ date +:+ " at " +:+ time)
    with (String " " (String "o" (String "n" (String " "
            (date +:+ " at " +:+ time))))).
  rewrite drop4_cons. destruct date as [|c date]; [done|].
  apply take_dots_cons in Hd as [Hdot Hd].
  rewrite append_cons in Hc. apply contains_cons_false in Hc as [_ Hc].
  rewrite append_cons, Hdot.
  rewrite match_date_exact by assumption. reflexivity.
Qed.

Lemma match_doctor_exact (name date time : string) :
  forall g1,
    ExportTools.take_dots name = name ->
    Py.contains " on " (name +:+ " on") = false ->
    date_text_ok date = true ->
    ExportTools.take_dots time = time -> time ≠ "" ->
    ExportTools.match_doctor g1
      (name +:+ " on " +:+ date +:+ " at " +:+ time)
    = Some (g1 +:+ name, date, time).
Proof.
  induction name as [|c name IH]; intros g1 Hn Hc Hd Ht Htne.
  - change ("" +:+ ?s) with s. rewrite append_nil_r.
    pose proof (match_on_exact date time Hd Ht Htne) as Hm.
    change (" on " +:+ date +:+ " at " +:+ time)
      with (String " " (String "o" (String "n" (String " "
              (date +:+ " at " +:+ time))))) in *.
    cbn [ExportTools.match_doctor]. rewrite Hm. reflexivity.
  - apply take_dots_cons in Hn as [Hdot Hn].
    rewrite append_cons in Hc. apply contains_cons_false in Hc as [Hp Hc].
    rewrite append_cons. cbn [ExportTools.match_doctor].
    assert (ExportTools.match_on
              (String c (name +:+ " on " +:+ date +:+ " at " +:+ time))
            = None) as ->.
    { unfold ExportTools.match_on.
      destruct (String.prefix " on "
                  (String c (name +:+ " on " +:+ date +:+ " at " +:+ time)))
        eqn:Hpre; [|reflexivity].
      rewrite <- append_cons in Hpre.
      apply (early_separator " " "o" "n" " " (String c name)) in Hpre;
        [|discriminate].
      rewrite append_cons in Hpre. congruence. }
    rewrite Hdot, IH by assumption.
    rewrite append_assoc. reflexivity.
Qed.

Lemma contains_false_one_line (s : string) :
  Py.contains nl s = false -> ExportTools.take_dots s = s.
Proof.
  induction s as [|c s IH]; [reflexivity|].
  intros [Hp Hc]%contains_cons_false. cbn [ExportTools.take_dots].
  unfold ExportTools.dot.
  destruct (Ascii.eqb c (ascii_of_nat 10)) eqn:Hc10.
  - apply Ascii.eqb_eq in Hc10 as ->. exfalso.
    assert (String.prefix nl (String (ascii_of_nat 10) s) = true) as Ht
      by (apply prefix_spec; exists s; reflexivity).
    congruence.
  - simpl. rewrite IH by exact Hc. reflexivity.
Qed.

Lemma rstrip_app (p s : string) :
  Py.rstrip s = s -> s ≠ "" -> Py.rstrip (p +:+ s) = p +:+ s.
Proof.
  intros Hs Hne. induction p as [|c p IH]; [exact Hs|].
  rewrite append_cons. cbn [Py.rstrip]. rewrite IH.
  destruct (p +:+ s) eqn:Hps; [|reflexivity].
  destruct p; [|rewrite append_cons in Hps; discriminate].
  change ("" +:+ s) with s in Hps. congruence.
Qed.

(** X9. A slot text that [find_available_slots] prints is read back by the
    pattern of [_parse_slot_string] exactly, for every start-time: when the
    doctor's name is "Dr. " followed by a name on one line in which " on "
    does not begin, the three groups are the doctor's name, the date text
    and the time text as printed.  If the name does not end with white
    space either, [_parse_slot_string] keeps the doctor's name and hands
    [strptime] the printed date, the year of the current time (the slot's
    own year is not in the text) and the printed time. *)
Theorem slot_text_round_trip (strptime : string -> option Z) (now t : Z)
    (name : string) :
  name ≠ "" ->
  Py.contains nl name = false ->
  Py.contains " on " (name +:+ " on") = false ->
  let doctor := "Dr. " +:+ name in
  ExportTools.re_search (format_slot doctor t)
  = Some (doctor, DT.strftime_date t, DT.strftime_time12 t)
  /\ (Py.rstrip name = name ->
      ExportTools._parse_slot_string strptime now (format_slot doctor t)
      = match strptime ((DT.strftime_date t +:+ ", " +:+ pretty (DT.year now))
                        +:+ " " +:+ DT.strftime_time12 t) with
        | Some dt_object =>
            Some (ExportTools.mkParsedSlot doctor
                    (DT.strftime_iso_date dt_object)
                    (DT.strftime_iso_time dt_object))
        | None => None
        end).
Proof.
  intros Hne Hnl Hon doctor.
  pose proof (strftime_date_ok t) as Hd.
  pose proof (strftime_time12_ok t) as Ht.
  pose proof Hd as Hd'. pose proof Ht as Ht'.
  unfold date_text_ok in Hd'. unfold time_text_ok in Ht'.
  rewrite !andb_true_iff, !negb_true_iff in Hd'.
  rewrite !andb_true_iff, !negb_true_iff in Ht'.
  destruct Hd' as [[[_ _] Hds%String.eqb_eq] _].
  destruct Ht' as [[Hto%String.eqb_eq Htn%String.eqb_neq] Hts%String.eqb_eq].
  assert (ExportTools.re_search (format_slot doctor t)
          = Some (doctor, DT.strftime_date t, DT.strftime_time12 t)) as Hre.
  { unfold format_slot, doctor. rewrite append_assoc.
    destruct name as [|c name]; [done|].
    apply contains_false_one_line in Hnl.
    apply take_dots_cons in Hnl as [Hdot Hnl].
    rewrite append_cons in Hon. apply contains_cons_false in Hon as [_ Hon].
    change ("Dr. " +:+ String c name +:+ ?r)
      with (String "D" (String "r" (String "." (String " "
              (String c (name +:+ r)))))).
    cbn [ExportTools.re_search]. unfold ExportTools.match_here.
    rewrite (proj2 (prefix_spec "Dr. " _))
      by (eexists; reflexivity).
    rewrite drop4_cons, Hdot.
    rewrite match_doctor_exact by assumption. reflexivity. }
  split; [exact Hre|]. intros Hrs.
  unfold ExportTools._parse_slot_string. rewrite Hre, Hds, Hts.
  assert (Py.strip doctor = doctor) as ->.
  { unfold Py.strip, doctor.
    change (Py.lstrip ("Dr. " +:+ name)) with ("Dr. " +:+ name).
    apply rstrip_app; assumption. }
  reflexivity.
Qed.

Lemma slot_text_round_trip_witness :
  ExportTools.re_search
    (format_slot "Dr. Evelyn Reed" (DT.datetime 2025 9 8 10 30 0))
  = Some ("Dr. Evelyn Reed", "Monday, September 08", "10:30 AM").
Proof.
  destruct (slot_text_round_trip Example.strptime 0
              (DT.datetime 2025 9 8 10 30 0) "Evelyn Reed") as [H _];
    [discriminate|vm_compute; reflexivity..|].
  etransitivity; [exact H|]. vm_compute. reflexivity.
Defined.

(** ** The selection helper of the scheduling agent *)




(** ** Appointment identifiers that collide *)



(** ** Slots that cannot be booked *)

Lemma re_search_needs_doctor (s : string) (m : string * string * string) :
  ExportTools.re_search s = Some m -> Py.contains "Dr. " s = true.
Proof.
  induction s as [|c s IH]; cbn [ExportTools.re_search].
  - unfold ExportTools.match_here.
    destruct (String.prefix "Dr. " "") eqn:Hp; [|discriminate].
    apply prefix_spec in Hp as [r Hr]. discriminate Hr.
  - destruct (ExportTools.match_here (String c s)) as [m'|] eqn:Hm.
    + intros _. apply contains_prefix. unfold ExportTools.match_here in Hm.
      destruct (String.prefix "Dr. " (String c s)); [reflexivity|discriminate].
    + intros H. apply contains_tail, IH, H.
Qed.

(** X12. A slot whose text does not contain "Dr. " can never be booked:
    whatever the clock, the date parser and the file do, [book_appointment]
    raises [ValueError], and the confirmation handler answers with the
    apology and goes back to [find_slots] without touching anything else.
    This is the case of every slot of a schedule row whose doctor name lacks
    the title. *)
Theorem slot_without_title_is_never_booked (strptime : string -> option Z)
    (inp : Inputs) (s : AgentState) (pid slot : string) (is_new : bool) :
  patient_id s = Some pid ->
  chosen_slot s = Some slot ->
  is_new_patient s = Some is_new ->
  Py.contains "Dr. " slot = false ->
  ExportTools.book_appointment strptime (in_now inp) (in_write_ok inp) pid
    slot (Some is_new) = inl ValueError
  /\ confirmation_node strptime inp s
     = Ok (set_stage find_slots (say booking_error_text s)).
Proof.
  intros Hp Hs Hn Hc.
  assert (ExportTools.book_appointment strptime (in_now inp) (in_write_ok inp)
            pid slot (Some is_new) = inl ValueError) as Hb.
  { unfold ExportTools.book_appointment, ExportTools._parse_slot_string.
    destruct (ExportTools.re_search slot) as [m|] eqn:Hre; [|reflexivity].
    apply re_search_needs_doctor in Hre. congruence. }
  split; [exact Hb|].
  unfold confirmation_node, confirmation_try. rewrite Hp, Hs, Hn, Hb.
  reflexivity.
Qed.

Lemma slot_without_title_is_never_booked_witness :
  let slot := format_slot "Evelyn Reed" (DT.datetime 2025 9 8 10 0 0) in
  let s :=
    mkAgentState [mkMessage "user" "1"] None (Some "P001") (Some false)
      (Some [slot]) (Some slot) None None (Some confirmation) in
  confirmation_node Example.strptime (Example.inputs true) s
  = Ok (set_stage find_slots (say booking_error_text s)).
Proof.
  intros slot s.
  apply (slot_without_title_is_never_booked Example.strptime
           (Example.inputs true) s "P001" slot false);
    [reflexivity..|vm_compute; reflexivity].
Defined.

(** ** The reminders *)

Section Reminders.

Import Reminder.

Variable patients : list Patient.
Variable now : Z.
Variable demo_phone demo_email : option string.

Lemma remind_some (sent : gset (string * nat)) (a : Appointment)
    (d : Delivery) :
  remind patients now demo_phone demo_email sent a = Some d ->
  tag d ∉ sent
  /\ for_appointment d = appointment_id a
  /\ window (number d) (appointment_datetime a - now)
  /\ exists p,
       p ∈ patients /\ p_patient_id p = patient_id a
       /\ to_phone d = demo_or demo_phone (phone p)
       /\ to_email d = demo_or demo_email (email p).
Proof.
  unfold remind.
  destruct (List.filter _ patients) as [|p ps] eqn:Hf; [discriminate|].
  assert (p ∈ patients /\ p_patient_id p = patient_id a) as [Hp Hid].
  { assert (In p (List.filter
                    (fun p => String.eqb (p_patient_id p) (patient_id a))
                    patients)) as Hin by (rewrite Hf; left; reflexivity).
    apply filter_In in Hin as [Hin Heq]. apply String.eqb_eq in Heq.
    split; [apply list_elem_of_In; exact Hin|exact Heq]. }
  repeat case_match; intros [= <-];
    repeat match goal with
           | H : _ && _ = true |- _ => apply andb_true_iff in H as [? ?]
           | H : bool_decide _ = true |- _ => apply bool_decide_eq_true in H
           | H : (_ <? _) = true |- _ => apply Z.ltb_lt in H
           | H : (_ <=? _) = true |- _ => apply Z.leb_le in H
           end;
    (split; [assumption|]); (split; [reflexivity|]);
    (split; [simpl; lia|]); exists p; auto.
Qed.

Lemma remind_all_spec (appointments : list Appointment) :
  forall sent out sent',
    remind_all patients now demo_phone demo_email sent appointments
    = (out, sent') ->
    sent' = sent ∪ list_to_set (tag <$> out)
    /\ NoDup (tag <$> out)
    /\ forall d, d ∈ out ->
         tag d ∉ sent
         /\ exists a, a ∈ appointments
              /\ for_appointment d = appointment_id a
              /\ window (number d) (appointment_datetime a - now)
              /\ exists p,
                   p ∈ patients /\ p_patient_id p = patient_id a
                   /\ to_phone d = demo_or demo_phone (phone p)
                   /\ to_email d = demo_or demo_email (email p).
Proof.
  induction appointments as [|a rest IH]; intros sent out sent';
    cbn [remind_all].
  - intros [= <- <-]. split; [set_solver|]. split; [constructor|].
    intros d Hd. inversion Hd.
  - destruct (remind patients now demo_phone demo_email sent a) as [d|]
      eqn:Hr.
    + destruct (remind_all _ _ _ _ (sent ∪ {[tag d]}) rest) as [out1 sent1]
        eqn:Hrest.
      intros [= <- <-]. apply IH in Hrest as (-> & Hnd & Hall).
      apply remind_some in Hr as (Hfresh & Hid & Hw & Hp).
      split; [rewrite fmap_cons; set_solver|].
      split.
      * rewrite fmap_cons. apply NoDup_cons. split; [|exact Hnd].
        intros (d' & Heq & Hd')%list_elem_of_fmap.
        destruct (Hall d' Hd') as [Hn _]. rewrite <- Heq in Hn. set_solver.
      * intros d' [->|Hd']%elem_of_cons.
        -- split; [exact Hfresh|]. exists a. split; [left|auto].
        -- destruct (Hall d' Hd') as (Hn & a' & Ha' & Hrest').
           split; [set_solver|]. exists a'. split; [right; exact Ha'|exact Hrest'].
    + intros Hrest. apply IH in Hrest as (-> & Hnd & Hall).
      split; [reflexivity|]. split; [exact Hnd|].
      intros d' Hd'. destruct (Hall d' Hd') as (Hn & a' & Ha' & Hrest').
      split; [exact Hn|]. exists a'. split; [right; exact Ha'|exact Hrest'].
Qed.

End Reminders.

(** X13. A reminder is sent at most once: in one check the reminders sent
    carry different pairs (appointment identifier, reminder number), none of
    which was in [sent_reminders] before; they are all added to it, whether
    or not the messages went through; and a later check on the agent, at any
    time, sends none of them again. *)
Theorem reminders_are_sent_once (self : Reminder.ReminderAgent) (now : Z)
    (demo_phone demo_email : option string) :
  let '(out, self') :=
    Reminder.check_and_send_reminders self now demo_phone demo_email in
  Reminder.sent_reminders self'
  = Reminder.sent_reminders self ∪ list_to_set (Reminder.tag <$> out)
  /\ NoDup (Reminder.tag <$> out)
  /\ (forall d, d ∈ out -> Reminder.tag d ∉ Reminder.sent_reminders self)
  /\ (forall now' demo_phone' demo_email' d d',
        d ∈ out ->
        d' ∈ (Reminder.check_and_send_reminders self' now' demo_phone'
                demo_email').1 ->
        Reminder.tag d' ≠ Reminder.tag d).
Proof.
  unfold Reminder.check_and_send_reminders.
  destruct (Reminder.remind_all _ _ _ _ _ _) as [out sent] eqn:H1.
  apply remind_all_spec in H1 as (Hs & Hnd & Hall).
  cbn [Reminder.sent_reminders Reminder.appointments_df Reminder.patients_df].
  split; [exact Hs|]. split; [exact Hnd|]. split; [intros d Hd; apply Hall, Hd|].
  intros now' dp' de' d d' Hd.
  destruct (Reminder.remind_all _ now' _ _ sent _) as [out2 sent2] eqn:H2.
  apply remind_all_spec in H2 as (_ & _ & Hall2).
  cbn [fst]. intros Hd' Heq. destruct (Hall2 d' Hd') as [Hn _].
  apply Hn. rewrite Hs, Heq. apply elem_of_union_r, elem_of_list_to_set.
  apply list_elem_of_fmap. eauto.
Qed.

(** X14. A reminder is sent only for an appointment of the frame whose time
    lies in the window of the reminder (more than 14 and at most 15 seconds
    ahead for the first, 9 to 10 for the second, 4 to 5 for the third) and
    whose patient is in the patient frame; it goes to the demo phone and
    address when they are given, else to the patient's.  An appointment of
    an unknown patient gets none; and when the frame is what
    [_load_appointments] read, the appointment is a row of the file whose
    status is "Confirmed". *)
Theorem reminders_are_due (self : Reminder.ReminderAgent) (now : Z)
    (demo_phone demo_email : option string) (d : Reminder.Delivery) :
  d ∈ (Reminder.check_and_send_reminders self now demo_phone demo_email).1 ->
  exists a p,
    a ∈ Reminder.appointments_df self
    /\ Reminder.for_appointment d = Reminder.appointment_id a
    /\ Reminder.window (Reminder.number d)
         (Reminder.appointment_datetime a - now)
    /\ p ∈ Reminder.patients_df self
    /\ Reminder.p_patient_id p = Reminder.patient_id a
    /\ Reminder.to_phone d = Reminder.demo_or demo_phone (Reminder.phone p)
    /\ Reminder.to_email d = Reminder.demo_or demo_email (Reminder.email p)
    /\ forall file,
         Reminder.appointments_df self = Reminder._load_appointments file ->
         Reminder.status a = "Confirmed"
         /\ exists rows, file = Some rows /\ a ∈ rows.
Proof.
  unfold Reminder.check_and_send_reminders.
  destruct (Reminder.remind_all _ _ _ _ _ _) as [out sent] eqn:H1.
  apply remind_all_spec in H1 as (_ & _ & Hall). cbn [fst]. intros Hd.
  destruct (Hall d Hd) as (_ & a & Ha & Hid & Hw & p & Hp).
  exists a, p. repeat (split; [tauto|]).
  intros [rows|] Hfile; rewrite Hfile in Ha; simpl in Ha; [|inversion Ha].
  apply list_elem_of_In, filter_In in Ha as [Hin Hst].
  apply String.eqb_eq in Hst. split; [exact Hst|].
  exists rows. split; [reflexivity|apply list_elem_of_In, Hin].
Qed.

(** Fourteen and a half seconds before her appointment of 10:00 Jane Doe
    gets the first reminder, on her own phone and address. *)
Lemma reminders_are_due_witness :
  let at_ten := Reminder.seconds (DT.datetime 2025 9 8 10 0 0) in
  let a := Reminder.mkAppointment "APP1" "P002" "Dr. Smith" at_ten
             "Confirmed" in
  let p := Reminder.mkPatient "P002" "Jane" "Doe" "+15550100"
             "jane@example.com" in
  let self := Reminder.mkReminderAgent [a] [p] ∅ in
  let d := Reminder.mkDelivery 1 "APP1" "+15550100" "jane@example.com"
             "Appointment Reminder: Today at 10:00 AM"
             "Hi Jane Doe, this is a reminder for your appointment today at 10:00 AM with Dr. Smith." in
  (Reminder.check_and_send_reminders self (at_ten - 14500000) None None).1
  = [d]
  /\ exists a' p',
       a' ∈ Reminder.appointments_df self
       /\ Reminder.for_appointment d = Reminder.appointment_id a'
       /\ Reminder.window (Reminder.number d)
            (Reminder.appointment_datetime a' - (at_ten - 14500000))
       /\ p' ∈ Reminder.patients_df self
       /\ Reminder.p_patient_id p' = Reminder.patient_id a'
       /\ Reminder.to_phone d = Reminder.demo_or None (Reminder.phone p')
       /\ Reminder.to_email d = Reminder.demo_or None (Reminder.email p')
       /\ forall file,
            Reminder.appointments_df self = Reminder._load_appointments file ->
            Reminder.status a' = "Confirmed"
            /\ exists rows, file = Some rows /\ a' ∈ rows.
Proof.
  intros at_ten a p self d.
  assert ((Reminder.check_and_send_reminders self (at_ten - 14500000) None
             None).1 = [d]) as Hsent by (lazy; reflexivity).
  split; [exact Hsent|].
  apply (reminders_are_due self (at_ten - 14500000) None None d).
  rewrite Hsent. left.
Defined.

(** ** What a completed conversation holds *)

Section Booked.

Variable scorer : string -> string -> Z.
Variable strptime : string -> option Z.
Variable patient_db : list PatientDB.Row.
Variable calendar_tool : CalendarTools.

Lemma first_related_elem (text slot : string) (slots : list string) :
  first_related text slots = Some slot -> slot ∈ slots.
Proof.
  unfold first_related. intros (i & Hi & _)%find_first.
  eapply list_elem_of_lookup_2, Hi.
Qed.

Ltac handler_cases Hrun :=
  unfold mbind, outcome_bind, subscript in Hrun;
  repeat case_match; simplify_eq; simpl in *; simplify_eq.

Ltac booked_goal :=
  split; simpl;
  [ intros [?|?]; simplify_eq
  | intros ?; simplify_eq
  | intros ?; simplify_eq
  | intros ? ?; simplify_eq ];
  try congruence.

Lemma reachable_booked (s : AgentState) :
  reachable scorer strptime patient_db calendar_tool s -> state_booked s.
Proof.
  induction 1 as [msgs|s msgs _ IH|s st inp s' Hs IH Hroute Hrun].
  - split; simpl; try done. intros [?|?]; done.
  - destruct IH as [B1 B2 B3 B4]. split; simpl; assumption.
  - apply reachable_invariant in Hs as [_ I2 _].
    apply route_goto in Hroute.
    pose proof (stage_of_route _ _ Hroute) as Hst.
    pose proof (before_none _ _ _ _ I2 Hroute) as Hid.
    destruct IH as [B1 B2 B3 B4].
    assert (st ≠ completed -> patient_email s = None) as Hem.
    { intros Hne. destruct (patient_email s) eqn:E; [|reflexivity].
      destruct (B3 ltac:(congruence)) as [Hc _].
      rewrite Hc in Hroute. simpl in Hroute. congruence. }
    destruct st; simpl in Hrun; try discriminate Hrun; injection Hrun as Hrun.
    all: try specialize (Hst ltac:(discriminate)).
    all: try specialize (Hid ltac:(simpl; lia)).
    all: specialize (Hem ltac:(discriminate)).
    + unfold greeting_node in Hrun. handler_cases Hrun; booked_goal.
    + unfold information_confirmation_node in Hrun.
      handler_cases Hrun; booked_goal.
    + unfold patient_lookup_node in Hrun. handler_cases Hrun; booked_goal.
    + unfold find_slots_node in Hrun.
      destruct (find_available_slots _ _ _ _ _) as [slots| |]; simpl in Hrun;
        try discriminate.
      handler_cases Hrun; booked_goal.
    + unfold selection_parser_node in Hrun.
      destruct (available_slots s) as [slots|] eqn:Hsl; simpl in Hrun;
        [|discriminate].
      handler_cases Hrun; booked_goal.
      all: do 2 eexists; (split; [eassumption|]); (split; [reflexivity|]);
        first [ eapply list_elem_of_lookup_2; eassumption
              | eapply first_related_elem; eassumption ].
    + unfold confirmation_node, confirmation_try in Hrun.
      handler_cases Hrun; booked_goal.
      all: destruct B1 as (sl & c & ? & ? & ?); [auto|]; simplify_eq;
        eauto 10.
    + unfold email_collection_node in Hrun.
      handler_cases Hrun; booked_goal; auto.
      split; [reflexivity|]. split; [auto|]. eexists. split; [reflexivity|].
      intros ->. discriminate.
Qed.

End Booked.

(** X15. What is booked was offered, and an address is only taken for a
    booking: in every state a conversation reaches, at stage [confirmation]
    and whenever there is an appointment identifier the chosen slot is one
    of the slots last listed; at [email_collection] the identifier is
    there; an address is stored only in a completed conversation that has an
    identifier, and is not empty; a completed conversation with an
    identifier has the address.  (A conversation is also completed, without
    identifier, when no slot is found.) *)
Theorem booked_slot_was_offered (scorer : string -> string -> Z)
    (strptime : string -> option Z) (patient_db : list PatientDB.Row)
    (calendar_tool : CalendarTools) (s : AgentState) :
  reachable scorer strptime patient_db calendar_tool s -> state_booked s.
Proof. apply reachable_booked. Qed.

Lemma completed_state_reachable :
  reachable Example.scorer Example.strptime Example.patient_db
    Example.calendar_tool completed_state.
Proof.
  apply (replay_reachable _ _ _ _
           (Example.conversation true
            ++ [UserSays "jane@example.com"; Handle (Example.inputs true)])%list
           Example.start);
    [apply reach_init|vm_compute; reflexivity].
Qed.

Lemma booked_slot_was_offered_witness :
  state_booked completed_state
  /\ conversation_stage completed_state = Some completed
  /\ patient_email completed_state = Some "jane@example.com"
  /\ chosen_slot completed_state
     = Some "Dr. Smith on Monday, September 08 at 10:00 AM".
Proof.
  split.
  - apply (booked_slot_was_offered Example.scorer Example.strptime
             Example.patient_db Example.calendar_tool).
    exact completed_state_reachable.
  - vm_compute. repeat split; reflexivity.
Defined.

(** ** A conversation without slots *)

(** X16. [find_slots_node] ends the conversation exactly when it finds no
    slot: the stage it leaves is [completed] if and only if the list of
    slots is empty.  The message it appends then asks the user a question,
    but the answer is never handled: whatever the message log becomes, a
    run of the graph on the state returns it unchanged, without calling a
    handler. *)
Theorem no_slots_ends_the_conversation (scorer : string -> string -> Z)
    (strptime : string -> option Z) (patient_db : list PatientDB.Row)
    (calendar_tool : CalendarTools) (inp : Inputs) (s s' : AgentState) :
  find_slots_node calendar_tool inp s = Ok s' ->
  (available_slots s' = Some [] <-> conversation_stage s' = Some completed)
  /\ (available_slots s' = Some [] ->
      assistant_last s'
      /\ forall msgs inps,
           invoke scorer strptime patient_db calendar_tool inps
             (set_messages msgs s')
           = Some (Ok (set_messages msgs s'))).
Proof.
  unfold find_slots_node. intros Hrun.
  destruct (find_available_slots _ _ _ _ _) as [slots| |]; simpl in Hrun;
    try discriminate.
  unfold mbind, outcome_bind, subscript in Hrun.
  destruct slots as [|slot slots]; simpl in Hrun;
    destruct (patient_info s) as [pi|]; simpl in Hrun; try discriminate;
    injection Hrun as <-; simpl.
  - split; [tauto|]. intros _. split.
    + unfold assistant_last, say. simpl. rewrite last_snoc. eauto.
    + intros msgs inps. destruct inps; simpl; unfold route_conversation; simpl;
        destruct (last msgs) as [m|]; try reflexivity;
        destruct (String.eqb (role m) "assistant"); reflexivity.
  - split; [|discriminate]. split; discriminate.
Qed.

Lemma no_slots_ends_the_conversation_witness :
  let calendar_tool := mkCalendarTools APPOINTMENT_DURATIONS [] ∅ in
  exists s',
    find_slots_node calendar_tool (Example.inputs true) Example.failed_state
    = Ok s'
    /\ conversation_stage s' = Some completed
    /\ invoke Example.scorer Example.strptime Example.patient_db calendar_tool
         [Example.inputs true]
         (set_messages (messages s' ++ [mkMessage "user" "Dr. Reed then"])%list
            s')
       = Some (Ok (set_messages
                     (messages s' ++ [mkMessage "user" "Dr. Reed then"])%list
                     s')).
Proof.
  intros calendar_tool.
  destruct (find_slots_node calendar_tool (Example.inputs true)
              Example.failed_state) as [s'| |] eqn:Hrun;
    [|vm_compute in Hrun; discriminate..].
  exists s'. split; [reflexivity|].
  destruct (no_slots_ends_the_conversation Example.scorer Example.strptime
              Example.patient_db calendar_tool _ _ _ Hrun) as [Hiff Hend].
  assert (available_slots s' = Some []) as Hnone.
  { vm_compute in Hrun. injection Hrun as <-. reflexivity. }
  split; [apply Hiff, Hnone|]. apply (Hend Hnone).
Defined.
